(** * Car-Car-Car: stage classification, required documents, readiness,
      path resolution, profile merge and document filling

    A shallow embedding of the rule-bearing TypeScript of the repository:
    [formService] (determineStage, getRequiredForms, getFormReadiness),
    [utils] (getValueByPath, generateFlatKeys, getCustomerProfileFlatKeys),
    [customerService] (deepMerge), [pdfGenerationService]
    (SPECIAL_HANDLERS, generatePreviewData, generatePdfBytes) and
    [constants] (INITIAL_CUSTOMER_PROFILE, ALL_FORMS).

    Conventions of the embedding.
    - A typed [CustomerProfile] is a nested record; untyped data ([any],
      JSON from the store, partial updates) is a [value].
    - JavaScript strings are [string]s of bytes (ASCII text); JavaScript
      numbers are the integers [Z] (the profile's numeric leaves are
      amounts; NaN, fractions and exponents are outside the model).
    - An object is its list of own enumerable properties in [Object.keys]
      order (array indices first, in ascending order, then the other keys
      in insertion order), with distinct keys.
    - [Js.get] reads own data properties: it gives [v[key]] whenever
      [key] is an own property of [v] or names no member that [v]
      inherits.  The members a plain object inherits from
      [Object.prototype] are listed in [Js.objectPrototypeNames]; the two
      reads of the preview that a template steers ([mappings[pdfField]]
      and [SPECIAL_HANDLERS[mappedPath]]) are modelled with them.
    - A thrown [TypeError] is written [Throw "TypeError"]: its message is
      the engine's.
    - A call that can throw returns a [completion]. *)

From Stdlib Require Import String Ascii List ZArith Bool Arith Lia.
From Stdlib Require Import DecimalString.
Import ListNotations.
Open Scope string_scope.
Set Warnings "-register-all".

(* ================================================================== *)
(** * JavaScript strings and values *)
(* ================================================================== *)

Module Js.

(** Result of evaluating an expression that may throw. *)
Inductive completion (A : Type) : Type :=
| Normal (a : A)
| Throw (e : string).
Arguments Normal {A} a.
Arguments Throw {A} e.

(** [s.split(sep)] for a one-character separator. *)
Fixpoint split (sep : ascii) (s : string) : list string :=
  match s with
  | EmptyString => [EmptyString]
  | String c rest =>
      if Ascii.eqb c sep then EmptyString :: split sep rest
      else match split sep rest with
           | head :: tail => String c head :: tail
           | [] => [String c EmptyString]
           end
  end.

(** [s.replace(a, b)] for one-character [a] and [b]: only the first
    occurrence is replaced. *)
Fixpoint replace (a b : ascii) (s : string) : string :=
  match s with
  | EmptyString => EmptyString
  | String c rest =>
      if Ascii.eqb c a then String b rest else String c (replace a b rest)
  end.

(** White space removed by [trim] (ASCII part: TAB, LF, VT, FF, CR, SP). *)
Definition isWhiteSpace (c : ascii) : bool :=
  let n := nat_of_ascii c in
  (Nat.leb 9 n && Nat.leb n 13) || Nat.eqb n 32.

Fixpoint trimStart (s : string) : string :=
  match s with
  | EmptyString => EmptyString
  | String c rest => if isWhiteSpace c then trimStart rest else s
  end.

Fixpoint trimEnd (s : string) : string :=
  match s with
  | EmptyString => EmptyString
  | String c rest =>
      match trimEnd rest with
      | EmptyString => if isWhiteSpace c then EmptyString else String c EmptyString
      | kept => String c kept
      end
  end.

Definition trim (s : string) : string := trimEnd (trimStart s).

(** [s.toLowerCase()] on ASCII letters. *)
Definition lowerChar (c : ascii) : ascii :=
  let n := nat_of_ascii c in
  if Nat.leb 65 n && Nat.leb n 90 then ascii_of_nat (n + 32) else c.

Fixpoint toLowerCase (s : string) : string :=
  match s with
  | EmptyString => EmptyString
  | String c rest => String (lowerChar c) (toLowerCase rest)
  end.

(** Truthiness of a string: non-empty. *)
Definition nonEmpty (s : string) : bool := negb (String.eqb s "").

(** Untyped data. *)
Inductive value : Type :=
| VUndefined
| VNull
| VBool (b : bool)
| VNumber (n : Z)
| VString (s : string)
| VArray (elements : list value)
| VObject (props : list (string * value)).

Definition truthy (v : value) : bool :=
  match v with
  | VUndefined | VNull => false
  | VBool b => b
  | VNumber n => negb (Z.eqb n 0)
  | VString s => nonEmpty s
  | VArray _ | VObject _ => true
  end.

(** Decimal text of an integer, as [String(n)] prints it for an integer
    of magnitude below 10^21 (from there on JavaScript prints an
    exponent). *)
Definition numberToString (n : Z) : string :=
  NilZero.string_of_int (Z.to_int n).

(** The property name of array index [i]. *)
Definition indexKey (i : nat) : string :=
  NilZero.string_of_uint (Nat.to_uint i).

Fixpoint indexedFrom (i : nat) (xs : list value) : list (string * value) :=
  match xs with
  | [] => []
  | x :: rest => (indexKey i, x) :: indexedFrom (S i) rest
  end.

Fixpoint chars (s : string) : list value :=
  match s with
  | EmptyString => []
  | String c rest => VString (String c EmptyString) :: chars rest
  end.

(** Own enumerable properties, in [Object.keys] order; a primitive
    without any has none. *)
Definition ownProps (v : value) : list (string * value) :=
  match v with
  | VObject props => props
  | VArray xs => indexedFrom 0 xs
  | VString s => indexedFrom 0 (chars s)
  | _ => []
  end.

Fixpoint lookup (key : string) (props : list (string * value)) : option value :=
  match props with
  | [] => None
  | (k, v) :: rest => if String.eqb k key then Some v else lookup key rest
  end.

(** The members a plain object inherits from [Object.prototype]. *)
Definition objectPrototypeNames : list string :=
  [ "constructor"; "__defineGetter__"; "__defineSetter__"; "hasOwnProperty";
    "__lookupGetter__"; "__lookupSetter__"; "isPrototypeOf";
    "propertyIsEnumerable"; "toString"; "valueOf"; "__proto__";
    "toLocaleString" ].

(** [key] names a member inherited from [Object.prototype]. *)
Definition inherited (key : string) : bool :=
  existsb (String.eqb key) objectPrototypeNames.

(** [v[key]] on a value that is neither [undefined] nor [null], as far
    as own data properties go: the own property when there is one,
    [undefined] when [key] names neither an own property nor an
    inherited member.  A [key] that names an inherited member and no own
    property is not covered. *)
Definition get (v : value) (key : string) : value :=
  match v with
  | VObject props =>
      match lookup key props with Some x => x | None => VUndefined end
  | VArray xs =>
      if String.eqb key "length" then VNumber (Z.of_nat (List.length xs))
      else match lookup key (indexedFrom 0 xs) with
           | Some x => x | None => VUndefined end
  | VString s =>
      if String.eqb key "length" then VNumber (Z.of_nat (String.length s))
      else match lookup key (indexedFrom 0 (chars s)) with
           | Some x => x | None => VUndefined end
  | _ => VUndefined
  end.

(** [v[key]] in general: reading a property of [undefined] or [null]
    throws a TypeError. *)
Definition readProp (v : value) (key : string) : completion value :=
  match v with
  | VUndefined | VNull => Throw "TypeError"
  | _ => Normal (get v key)
  end.

(** The array index a property name spells, if any: a canonical decimal
    numeral up to 2^32 - 2. *)
Definition digitOf (c : ascii) : option N :=
  let n := N_of_ascii c in
  if N.leb 48 n && N.leb n 57 then Some (n - 48)%N else None.

Fixpoint numeral (s : string) (acc : N) : option N :=
  match s with
  | EmptyString => Some acc
  | String c rest =>
      match digitOf c with
      | Some d => numeral rest (acc * 10 + d)%N
      | None => None
      end
  end.

Definition arrayIndex (key : string) : option N :=
  match key with
  | EmptyString => None
  | String c rest =>
      if Ascii.eqb c "0" then
        match rest with EmptyString => Some 0%N | _ => None end
      else
        match numeral key 0 with
        | Some n => if N.leb n 4294967294 then Some n else None
        | None => None
        end
  end.

(** In the order of own keys, a new key [key] comes before the present
    key [k]: [key] is an array index and [k] is a larger one or none. *)
Definition precedes (key k : string) : bool :=
  match arrayIndex key with
  | Some n =>
      match arrayIndex k with
      | Some m => N.ltb n m
      | None => true
      end
  | None => false
  end.

(** The value of an existing key is replaced where the key stands. *)
Fixpoint assign (key : string) (x : value) (props : list (string * value))
  : list (string * value) :=
  match props with
  | [] => []
  | (k, v) :: rest =>
      if String.eqb k key then (k, x) :: rest else (k, v) :: assign key x rest
  end.

(** A new key that is an array index goes among the array indices, in
    ascending order; any other new key goes last. *)
Fixpoint insert (key : string) (x : value) (props : list (string * value))
  : list (string * value) :=
  match props with
  | [] => [(key, x)]
  | (k, v) :: rest =>
      if precedes key k then (key, x) :: (k, v) :: rest
      else (k, v) :: insert key x rest
  end.

(** [obj[key] = x] on a property list: an existing key keeps its place,
    a new key takes the place the key order gives it.  (A [key] other
    than [__proto__], which names the accessor of the prototype.) *)
Definition set (key : string) (x : value) (props : list (string * value))
  : list (string * value) :=
  match lookup key props with
  | Some _ => assign key x props
  | None => insert key x props
  end.

(** [String(v)]. *)
Fixpoint toString (v : value) : string :=
  match v with
  | VUndefined => "undefined"
  | VNull => "null"
  | VBool b => if b then "true" else "false"
  | VNumber n => numberToString n
  | VString s => s
  | VArray xs =>
      (fix join (xs : list value) : string :=
         match xs with
         | [] => ""
         | x :: rest =>
             let piece := match x with
                          | VUndefined | VNull => ""
                          | _ => toString x
                          end in
             match rest with
             | [] => piece
             | _ => piece ++ "," ++ join rest
             end
         end) xs
  | VObject _ => "[object Object]"
  end.

(** Distinct keys at every level: the shape every real object has. *)
Fixpoint distinct (keys : list string) : bool :=
  match keys with
  | [] => true
  | k :: rest => negb (existsb (String.eqb k) rest) && distinct rest
  end.


End Js.

Import Js.

(* ================================================================== *)
(** * types.ts: the typed customer record and the form descriptor *)
(* ================================================================== *)

Module Address.
Record t := mk
  { full_address : string; street : string; city : string;
    state : string; zip : string }.
End Address.

Module DriversLicense.
Record t := mk
  { number : string; expiration : string; state : string;
    is_expired : option bool }.
End DriversLicense.

Module PersonalInfo.
Record t := mk
  { full_name : string; first_name : string; last_name : string;
    phone : string; email : string;
    address : Address.t; drivers_license : DriversLicense.t }.
End PersonalInfo.

Module InterestVehicle.
Record t := mk
  { year : string; make : string; model : string;
    stock_number : string; vin : string }.
End InterestVehicle.

Module TradeVehicle.
Record t := mk
  { year : string; make : string; model : string; vin : string;
    lien_holder : string; payoff_amount : Z }.
End TradeVehicle.

Module VehicleInfo.
Record t := mk
  { interest_vehicle : InterestVehicle.t; trade_vehicle : TradeVehicle.t;
    trade_in : bool; purchase_type : string }.
End VehicleInfo.

Module Employment.
Record t := mk { employer : string; position : string; income : Z }.
End Employment.

Module Reference.
Record t := mk { name : string; phone : string; relationship : string }.
End Reference.

Module FinancialInfo.
Record t := mk
  { employment : Employment.t; financing_needed : bool;
    references : list Reference.t }.
End FinancialInfo.

Module SalesInfo.
Record t := mk { stage : string; salesperson : string }.
End SalesInfo.

Module CustomerProfile.
Record t := mk
  { id : string; created_at : option string;
    personal_info : PersonalInfo.t; vehicle_info : VehicleInfo.t;
    financial_info : FinancialInfo.t; sales_info : SalesInfo.t }.
End CustomerProfile.

(** [FormStage = 'initial_contact' | 'financing' | 'closing']. *)
Inductive FormStage : Type := initial_contact | financing | closing.

(** The stage tag of a form: [FormStage | 'always' | 'conditional']. *)
Inductive FormTag : Type :=
| staged (s : FormStage)
| always
| conditional.

(** The string a stage is at run time. *)
Definition stageName (s : FormStage) : string :=
  match s with
  | initial_contact => "initial_contact"
  | financing => "financing"
  | closing => "closing"
  end.

Definition FormStage_eqb (a b : FormStage) : bool :=
  match a, b with
  | initial_contact, initial_contact
  | financing, financing
  | closing, closing => true
  | _, _ => false
  end.

(** [===] on stage tags. *)
Definition FormTag_eqb (a b : FormTag) : bool :=
  match a, b with
  | staged x, staged y => FormStage_eqb x y
  | always, always | conditional, conditional => true
  | _, _ => false
  end.

Module Form.
Record t := mk { id : string; name : string; stage : FormTag }.
End Form.

(** The profile as the object the untyped helpers see (the JSON of the
    record, optional members absent when unset). *)
Module Encode.

Definition optional {A} (key : string) (f : A -> value) (x : option A)
  : list (string * value) :=
  match x with Some a => [(key, f a)] | None => [] end.

Definition address (a : Address.t) : value :=
  VObject [("full_address", VString (Address.full_address a));
           ("street", VString (Address.street a));
           ("city", VString (Address.city a));
           ("state", VString (Address.state a));
           ("zip", VString (Address.zip a))].

Definition drivers_license (d : DriversLicense.t) : value :=
  VObject ([("number", VString (DriversLicense.number d));
            ("expiration", VString (DriversLicense.expiration d));
            ("state", VString (DriversLicense.state d))]
           ++ optional "is_expired" VBool (DriversLicense.is_expired d)).

Definition personal_info (p : PersonalInfo.t) : value :=
  VObject [("full_name", VString (PersonalInfo.full_name p));
           ("first_name", VString (PersonalInfo.first_name p));
           ("last_name", VString (PersonalInfo.last_name p));
           ("phone", VString (PersonalInfo.phone p));
           ("email", VString (PersonalInfo.email p));
           ("address", address (PersonalInfo.address p));
           ("drivers_license", drivers_license (PersonalInfo.drivers_license p))].

Definition interest_vehicle (v : InterestVehicle.t) : value :=
  VObject [("year", VString (InterestVehicle.year v));
           ("make", VString (InterestVehicle.make v));
           ("model", VString (InterestVehicle.model v));
           ("stock_number", VString (InterestVehicle.stock_number v));
           ("vin", VString (InterestVehicle.vin v))].

Definition trade_vehicle (v : TradeVehicle.t) : value :=
  VObject [("year", VString (TradeVehicle.year v));
           ("make", VString (TradeVehicle.make v));
           ("model", VString (TradeVehicle.model v));
           ("vin", VString (TradeVehicle.vin v));
           ("lien_holder", VString (TradeVehicle.lien_holder v));
           ("payoff_amount", VNumber (TradeVehicle.payoff_amount v))].

Definition vehicle_info (v : VehicleInfo.t) : value :=
  VObject [("interest_vehicle", interest_vehicle (VehicleInfo.interest_vehicle v));
           ("trade_vehicle", trade_vehicle (VehicleInfo.trade_vehicle v));
           ("trade_in", VBool (VehicleInfo.trade_in v));
           ("purchase_type", VString (VehicleInfo.purchase_type v))].

Definition employment (e : Employment.t) : value :=
  VObject [("employer", VString (Employment.employer e));
           ("position", VString (Employment.position e));
           ("income", VNumber (Employment.income e))].

Definition reference (r : Reference.t) : value :=
  VObject [("name", VString (Reference.name r));
           ("phone", VString (Reference.phone r));
           ("relationship", VString (Reference.relationship r))].

Definition financial_info (f : FinancialInfo.t) : value :=
  VObject [("employment", employment (FinancialInfo.employment f));
           ("financing_needed", VBool (FinancialInfo.financing_needed f));
           ("references", VArray (map reference (FinancialInfo.references f)))].

Definition sales_info (s : SalesInfo.t) : value :=
  VObject [("stage", VString (SalesInfo.stage s));
           ("salesperson", VString (SalesInfo.salesperson s))].

Definition profile (c : CustomerProfile.t) : value :=
  VObject ([("id", VString (CustomerProfile.id c))]
           ++ optional "created_at" VString (CustomerProfile.created_at c)
           ++ [("personal_info", personal_info (CustomerProfile.personal_info c));
               ("vehicle_info", vehicle_info (CustomerProfile.vehicle_info c));
               ("financial_info", financial_info (CustomerProfile.financial_info c));
               ("sales_info", sales_info (CustomerProfile.sales_info c))]).

End Encode.

(* ================================================================== *)
(** * constants.ts *)
(* ================================================================== *)

Definition SALESPERSON_NAME : string := "Stephen Schreck".

(** The object literal [INITIAL_CUSTOMER_PROFILE] (it has no [id]). *)
Definition INITIAL_CUSTOMER_PROFILE : value :=
  VObject
    [("personal_info", VObject
        [("full_name", VString ""); ("first_name", VString "");
         ("last_name", VString ""); ("phone", VString "");
         ("email", VString "");
         ("address", VObject
            [("full_address", VString ""); ("street", VString "");
             ("city", VString ""); ("state", VString "");
             ("zip", VString "")]);
         ("drivers_license", VObject
            [("number", VString ""); ("expiration", VString "");
             ("state", VString "OH")])]);
     ("vehicle_info", VObject
        [("interest_vehicle", VObject
            [("year", VString ""); ("make", VString "");
             ("model", VString ""); ("stock_number", VString "");
             ("vin", VString "")]);
         ("trade_vehicle", VObject
            [("year", VString ""); ("make", VString "");
             ("model", VString ""); ("vin", VString "");
             ("lien_holder", VString ""); ("payoff_amount", VNumber 0)]);
         ("trade_in", VBool false);
         ("purchase_type", VString "")]);
     ("financial_info", VObject
        [("employment", VObject
            [("employer", VString ""); ("position", VString "");
             ("income", VNumber 0)]);
         ("financing_needed", VBool false);
         ("references", VArray [])]);
     ("sales_info", VObject
        [("stage", VString "initial_contact");
         ("salesperson", VString SALESPERSON_NAME)])].

Definition ALL_FORMS : list Form.t :=
  [ Form.mk "interview_sheet" "Interview Sheet" (staged initial_contact);
    Form.mk "test_drive_agreement" "Test Drive Agreement" (staged initial_contact);
    Form.mk "credit_application" "Credit Application (F&I)" (staged financing);
    Form.mk "reference_sheet" "Reference Sheet" (staged financing);
    Form.mk "delivery_report" "Delivery Report" always;
    Form.mk "privacy_policy" "Privacy Policy" always;
    Form.mk "deal_check_list" "Deal Check List" always;
    Form.mk "oil_changes_form" "Oil Changes Form" conditional;
    Form.mk "payoff_authorization" "Payoff Authorization Sheet" conditional ].

(* ================================================================== *)
(** * services/formService.ts *)
(* ================================================================== *)

Module FormService.

Import CustomerProfile.

(** [determineStage]: two guarded returns and a default. *)
Definition determineStage (customer : CustomerProfile.t) : FormStage :=
  let personal_info := personal_info customer in
  let financial_info := financial_info customer in
  let vehicle_info := vehicle_info customer in
  if nonEmpty (InterestVehicle.vin (VehicleInfo.interest_vehicle vehicle_info))
     && nonEmpty (DriversLicense.number (PersonalInfo.drivers_license personal_info))
  then closing
  else if FinancialInfo.financing_needed financial_info
          && nonEmpty (PersonalInfo.full_name personal_info)
          && nonEmpty (PersonalInfo.phone personal_info)
  then financing
  else initial_contact.

(** An element of the result of [getRequiredForms]. *)
Record RequiredForm := mkRequired { form : Form.t; reason : string }.

(** [Map<string, { form, reason }>]: entries in insertion order;
    [set] on a present key replaces the payload where it stands. *)
Definition FormMap := list (string * RequiredForm).

Fixpoint Map_set (key : string) (entry : RequiredForm) (m : FormMap) : FormMap :=
  match m with
  | [] => [(key, entry)]
  | (k, e) :: rest =>
      if String.eqb k key then (k, entry) :: rest
      else (k, e) :: Map_set key entry rest
  end.

Definition Map_values (m : FormMap) : list RequiredForm := map snd m.

(** [forms.forEach(f => requiredForms.set(f.id, { form: f, reason }))]. *)
Definition setEach (reason : string) (forms : list Form.t) (m : FormMap) : FormMap :=
  fold_left (fun acc f => Map_set (Form.id f) (mkRequired f reason) acc) forms m.

Definition getRequiredForms (customer : CustomerProfile.t) : list RequiredForm :=
  let stage := determineStage customer in
  let requiredForms : FormMap := [] in
  (* Stage-based forms *)
  let requiredForms :=
    setEach ("Stage: " ++ replace "_" " " (stageName stage))
            (filter (fun f => FormTag_eqb (Form.stage f) (staged stage)) ALL_FORMS)
            requiredForms in
  (* Conditional forms are checked regardless of stage *)
  let requiredForms :=
    if String.eqb (VehicleInfo.purchase_type (vehicle_info customer)) "new" then
      match find (fun f => String.eqb (Form.id f) "oil_changes_form") ALL_FORMS with
      | Some form => Map_set (Form.id form) (mkRequired form "New Vehicle") requiredForms
      | None => requiredForms
      end
    else requiredForms in
  let requiredForms :=
    if VehicleInfo.trade_in (vehicle_info customer) then
      match find (fun f => String.eqb (Form.id f) "payoff_authorization") ALL_FORMS with
      | Some form => Map_set (Form.id form) (mkRequired form "Has Trade-In") requiredForms
      | None => requiredForms
      end
    else requiredForms in
  (* During the closing stage, also include all forms marked 'always'. *)
  let requiredForms :=
    if FormStage_eqb stage closing then
      setEach "Required for Sale"
              (filter (fun f => FormTag_eqb (Form.stage f) always) ALL_FORMS)
              requiredForms
    else requiredForms in
  Map_values requiredForms.

Record FormReadiness := mkReadiness { isReady : bool; warnings : list string }.

(** [if (missing) warnings.push(message)]. *)
Definition pushIf (missing : bool) (message : string) (warnings : list string)
  : list string :=
  if missing then warnings ++ [message] else warnings.

Definition getFormReadiness (formId : string) (customer : CustomerProfile.t)
  : FormReadiness :=
  let warnings : list string := [] in
  let personal_info := personal_info customer in
  let vehicle_info := vehicle_info customer in
  let financial_info := financial_info customer in
  let interest := VehicleInfo.interest_vehicle vehicle_info in
  let trade := VehicleInfo.trade_vehicle vehicle_info in
  let license := PersonalInfo.drivers_license personal_info in
  let noName := negb (nonEmpty (PersonalInfo.full_name personal_info)) in
  let warnings :=
    if String.eqb formId "interview_sheet" then
      let warnings := pushIf noName "Missing customer name." warnings in
      let warnings := pushIf (negb (nonEmpty (PersonalInfo.phone personal_info)))
                             "Missing phone number." warnings in
      pushIf (negb (nonEmpty (PersonalInfo.email personal_info)))
             "Missing email address." warnings
    else if String.eqb formId "test_drive_agreement" then
      let warnings := pushIf noName "Missing customer name." warnings in
      let warnings := pushIf (negb (nonEmpty (DriversLicense.number license)))
                             "Missing driver's license number." warnings in
      let warnings := pushIf (negb (nonEmpty (DriversLicense.expiration license)))
                             "Missing license expiration date." warnings in
      pushIf (negb (nonEmpty (InterestVehicle.make interest))
              || negb (nonEmpty (InterestVehicle.model interest)))
             "Missing vehicle of interest." warnings
    else if String.eqb formId "credit_application" then
      let warnings := pushIf noName "Missing customer name." warnings in
      let warnings :=
        pushIf (negb (nonEmpty (Address.full_address (PersonalInfo.address personal_info))))
               "Missing customer address." warnings in
      pushIf (negb (nonEmpty (Employment.employer (FinancialInfo.employment financial_info))))
             "Missing employment information." warnings
    else if String.eqb formId "reference_sheet" then
      let warnings := pushIf noName "Missing customer name." warnings in
      pushIf (Nat.ltb (List.length (FinancialInfo.references financial_info)) 1)
             "At least one reference is required." warnings
    else if String.eqb formId "delivery_report" then
      let warnings := pushIf noName "Missing customer name." warnings in
      pushIf (negb (nonEmpty (InterestVehicle.vin interest)))
             "Missing VIN for vehicle of interest." warnings
    else if String.eqb formId "privacy_policy"
            || String.eqb formId "deal_check_list" then
      pushIf noName "Missing customer name." warnings
    else if String.eqb formId "oil_changes_form" then
      let warnings := pushIf noName "Missing customer name." warnings in
      pushIf (negb (nonEmpty (InterestVehicle.model interest)))
             "Missing vehicle model." warnings
    else if String.eqb formId "payoff_authorization" then
      let warnings := pushIf noName "Missing customer name." warnings in
      let warnings := pushIf (negb (nonEmpty (TradeVehicle.vin trade)))
                             "Missing trade-in vehicle VIN." warnings in
      pushIf (negb (nonEmpty (TradeVehicle.lien_holder trade)))
             "Missing trade-in lien holder." warnings
    else warnings in
  mkReadiness (Nat.eqb (List.length warnings) 0) warnings.

End FormService.

(* ================================================================== *)
(** * utils.ts *)
(* ================================================================== *)

Module Utils.

(** The reducer of [getValueByPath]: [acc && acc[part]]. *)
Definition step (acc : completion value) (part : string) : completion value :=
  match acc with
  | Normal a => if truthy a then readProp a part else Normal a
  | Throw e => Throw e
  end.

(** [path.split('.').reduce((acc, part) => acc && acc[part], obj)]. *)
Definition getValueByPath (obj : value) (path : string) : completion value :=
  fold_left step (split "." path) (Normal obj).

(** [path ? `${path}.${key}` : key]. *)
Definition joinPath (path key : string) : string :=
  if nonEmpty path then path ++ "." ++ key else key.

(** [generateFlatKeys]: a reduce over [Object.keys(obj)] that recurses
    into plain objects only.  The function is private to the module and
    is applied to the default profile and, from there, to plain objects;
    on any other value the model yields no key. *)
Fixpoint generateFlatKeys (obj : value) (path : string) : list string :=
  match obj with
  | VObject props =>
      (fix reduce (props : list (string * value)) (acc : list string)
         : list string :=
         match props with
         | [] => acc
         | (key, value) :: rest =>
             let newPath := joinPath path key in
             reduce rest
               (match value with
                | VObject _ => (acc ++ generateFlatKeys value newPath)%list
                | _ => (acc ++ [newPath])%list
                end)
         end) props []
  | _ => []
  end.

(** The module-level memo [flatKeys] is threaded as state. *)
Definition getCustomerProfileFlatKeys (flatKeys : option (list string))
  : list string * option (list string) :=
  match flatKeys with
  | Some keys => (keys, Some keys)
  | None =>
      let keys := generateFlatKeys INITIAL_CUSTOMER_PROFILE "" in
      (keys, Some keys)
  end.

End Utils.

(* ================================================================== *)
(** * services/customerService.ts: the merge behind profile updates *)
(* ================================================================== *)

Module CustomerService.

(** The guard of the non-object branch:
    [sourceValue !== undefined && sourceValue !== null && sourceValue !== '']. *)
Definition assignable (sourceValue : value) : bool :=
  match sourceValue with
  | VUndefined | VNull => false
  | VString s => nonEmpty s
  | _ => true
  end.

(** The non-object branch of the loop body. *)
Definition mergeLeaf (key : string) (sourceValue : value)
           (output : list (string * value)) : list (string * value) :=
  if assignable sourceValue then set key sourceValue output else output.

(** [deepMerge(target, source)].  [{ ...target }] copies the own
    properties of [target] (none for [undefined], [null], numbers and
    booleans).  Recursion is on [source]: the recursive call is made
    only for a source value that is a non-null, non-array object. *)
Fixpoint deepMerge (target source : value) {struct source} : value :=
  let output := ownProps target in
  if truthy target && truthy source then
    match source with
    | VObject props =>
        VObject
          ((fix forEach (props : list (string * value))
                (output : list (string * value)) : list (string * value) :=
              match props with
              | [] => output
              | (key, sourceValue) :: rest =>
                  let targetValue := get target key in
                  forEach rest
                    (match sourceValue with
                     | VObject _ =>
                         set key (deepMerge targetValue sourceValue) output
                     | _ => mergeLeaf key sourceValue output
                     end)
              end) props output)
    | VArray xs =>
        VObject
          ((fix forEach (i : nat) (xs : list value)
                (output : list (string * value)) : list (string * value) :=
              match xs with
              | [] => output
              | sourceValue :: rest =>
                  let key := indexKey i in
                  let targetValue := get target key in
                  forEach (S i) rest
                    (match sourceValue with
                     | VObject _ =>
                         set key (deepMerge targetValue sourceValue) output
                     | _ => mergeLeaf key sourceValue output
                     end)
              end) 0 xs output)
    | _ =>
        VObject
          (fold_left (fun output kv => mergeLeaf (fst kv) (snd kv) output)
                     (ownProps source) output)
    end
  else VObject output.

(** The value found by walking own properties of nested plain objects. *)
Fixpoint leafAt (v : value) (path : list string) : option value :=
  match path with
  | [] => Some v
  | key :: rest =>
      match v with
      | VObject props =>
          match lookup key props with
          | Some x => leafAt x rest
          | None => None
          end
      | _ => None
      end
  end.


End CustomerService.

(* ================================================================== *)
(** * services/pdfGenerationService.ts *)
(* ================================================================== *)

Module FilledField.
Record t := mk { pdfField : string; value : string; sourcePath : string }.
End FilledField.

(** What the template service answers during one call: the saved mapping
    ([pdf field name -> path or special key]), the discovered field names
    and the stored template of a form id. *)
Module TemplateService.
Definition FieldMapping := list (string * string).
Record t := mk
  { getMappingsForForm : string -> FieldMapping;
    getDiscoveredFields : string -> list string;
    getTemplateFile : string -> option string }.

(** The own entry of [mappings] under [pdfField], if any. *)
Fixpoint mapped (pdfField : string) (mappings : FieldMapping) : option string :=
  match mappings with
  | [] => None
  | (k, path) :: rest =>
      if String.eqb k pdfField then Some path else mapped pdfField rest
  end.
End TemplateService.

(** The part of pdf-lib the generator drives.  A document is mutated in
    place, so a call that throws may still have changed it: every writer
    returns the document together with its completion. *)
Module PdfLib.
Inductive PDFField : Type :=
| PDFTextField | PDFCheckBox | PDFRadioGroup | PDFOtherField.

Record t := mk
  { PDFDocument : Type;
    Uint8Array : Type;
    load : string -> completion PDFDocument;
    getField : PDFDocument -> string -> completion PDFField;
    setText : PDFDocument -> string -> string -> PDFDocument * completion unit;
    check : PDFDocument -> string -> PDFDocument * completion unit;
    uncheck : PDFDocument -> string -> PDFDocument * completion unit;
    select : PDFDocument -> string -> string -> PDFDocument * completion unit;
    flatten : PDFDocument -> PDFDocument * completion unit;
    save : PDFDocument -> completion Uint8Array }.

(** The calls a run makes, in order. *)
Inductive Call : Type :=
| GetField (name : string)
| SetText (name text : string)
| Check (name : string)
| Uncheck (name : string)
| Select (name option : string)
| ConsoleWarn (pdfField formName error : string)
| Flatten
| Save.
End PdfLib.

Module PdfGenerationService.

Import CustomerProfile.

(** [`${v.year} ${v.make} ${v.model}`.trim()]. *)
Definition ymm (year make model : string) : string :=
  trim (year ++ " " ++ make ++ " " ++ model).

(** [SPECIAL_HANDLERS].  [today] stands for what
    [new Date().toLocaleDateString('en-US')] returns during the call. *)
Definition SPECIAL_HANDLERS (today : string)
  : list (string * (CustomerProfile.t -> string)) :=
  [ ("__CURRENT_DATE__", fun _ => today);
    ("__SALESPERSON__", fun _ => SALESPERSON_NAME);
    ("__INTEREST_VEHICLE_YMM__", fun c =>
       let v := VehicleInfo.interest_vehicle (vehicle_info c) in
       ymm (InterestVehicle.year v) (InterestVehicle.make v) (InterestVehicle.model v));
    ("__TRADE_VEHICLE_YMM__", fun c =>
       let v := VehicleInfo.trade_vehicle (vehicle_info c) in
       ymm (TradeVehicle.year v) (TradeVehicle.make v) (TradeVehicle.model v)) ].

Definition MAPPABLE_SPECIAL_KEYS : list string :=
  map fst (SPECIAL_HANDLERS "").

(** The own entry of the registry under [key], if any. *)
Fixpoint handlerFor (key : string)
         (handlers : list (string * (CustomerProfile.t -> string)))
  : option (CustomerProfile.t -> string) :=
  match handlers with
  | [] => None
  | (k, h) :: rest => if String.eqb k key then Some h else handlerFor key rest
  end.

Definition FINANCIAL_FIELDS_TO_SKIP : list string :=
  ["SalePrice"; "DownPayment"; "PayoffAmount"; "AnnualIncome"; "SSN"].

Definition includes (xs : list string) (x : string) : bool :=
  existsb (String.eqb x) xs.

(** The formatting block followed by [String(value)]. *)
Definition display (v : Js.value) : string :=
  toString
    (match v with
     | VUndefined | VNull => VString "---"
     | VString s => if String.eqb s "" then VString "---" else v
     | VBool b => VString (if b then "Yes" else "No")
     | VNumber n => if Z.eqb n 0 then VString "---" else v
     | _ => v
     end).

(** [SPECIAL_HANDLERS[name](customer)] for a [name] that is no key of
    the registry but a member it inherits from [Object.prototype]; the
    call has the registry as receiver.  [constructor] converts the
    profile to an object, that is, returns it; [toString] and
    [toLocaleString] give the tag of the registry; [valueOf] gives the
    registry itself, an object (only its being one matters to the
    formatting); [hasOwnProperty], [isPrototypeOf] and
    [propertyIsEnumerable] find nothing under the profile taken as a
    key or a prototype; the two look-ups find no accessor; the two
    definers refuse a missing function and [__proto__] is an object, not
    a function.  [None]: the registry has no member [name]. *)
Definition inheritedHandler (name : string) (customer : Js.value)
  : option (completion Js.value) :=
  if String.eqb name "constructor" then Some (Normal customer)
  else if includes ["toString"; "toLocaleString"] name then
    Some (Normal (VString "[object Object]"))
  else if String.eqb name "valueOf" then Some (Normal (VObject []))
  else if includes ["hasOwnProperty"; "isPrototypeOf"; "propertyIsEnumerable"] name
  then Some (Normal (VBool false))
  else if includes ["__lookupGetter__"; "__lookupSetter__"] name then
    Some (Normal VUndefined)
  else if includes ["__defineGetter__"; "__defineSetter__"; "__proto__"] name then
    Some (Throw "TypeError")
  else None.

(** One iteration of the loop of [generatePreviewData].  A field with
    no own entry in [mappings] reads [undefined], unless its name is
    that of a member [mappings] inherits: the value read is then a
    built-in function or object, which is truthy, is no key of the
    registry and has no [split], so that [getValueByPath] throws. *)
Definition previewField (mappings : TemplateService.FieldMapping)
           (today : string) (customer : CustomerProfile.t) (pdfField : string)
  : completion FilledField.t :=
  if includes FINANCIAL_FIELDS_TO_SKIP pdfField then
    Normal (FilledField.mk pdfField "[Manual Entry]" "N/A")
  else
    match TemplateService.mapped pdfField mappings with
    | None =>
        if inherited pdfField then Throw "TypeError"
        else Normal (FilledField.mk pdfField (display (VString "")) "Not Mapped")
    | Some mappedPath =>
        if nonEmpty mappedPath then
          let value :=
            match handlerFor mappedPath (SPECIAL_HANDLERS today) with
            | Some handler => Normal (VString (handler customer))
            | None =>
                match inheritedHandler mappedPath (Encode.profile customer) with
                | Some result => result
                | None => Utils.getValueByPath (Encode.profile customer) mappedPath
                end
            end in
          match value with
          | Normal v => Normal (FilledField.mk pdfField (display v) mappedPath)
          | Throw e => Throw e
          end
        else Normal (FilledField.mk pdfField (display (VString "")) "Not Mapped")
    end.

Fixpoint previewLoop (mappings : TemplateService.FieldMapping)
         (today : string) (customer : CustomerProfile.t)
         (discoveredFields : list string) (filledData : list FilledField.t)
  : completion (list FilledField.t) :=
  match discoveredFields with
  | [] => Normal filledData
  | pdfField :: rest =>
      match previewField mappings today customer pdfField with
      | Normal f => previewLoop mappings today customer rest (filledData ++ [f])
      | Throw e => Throw e
      end
  end.

Definition generatePreviewData (store : TemplateService.t) (today : string)
           (formId : string) (customer : CustomerProfile.t)
  : completion (list FilledField.t) :=
  let mappings := TemplateService.getMappingsForForm store formId in
  let discoveredFields := TemplateService.getDiscoveredFields store formId in
  previewLoop mappings today customer discoveredFields [].

Section Filling.

Context (lib : PdfLib.t).
Import PdfLib.

(** The document being filled and the calls made so far. *)
Definition World : Type := (PDFDocument lib * list Call)%type.

(** Statements that change the world and may throw. *)
Definition M (A : Type) : Type := World -> World * completion A.

Definition ret {A} (a : A) : M A := fun w => (w, Normal a).

Definition bind {A B} (m : M A) (k : A -> M B) : M B :=
  fun w =>
    match m w with
    | (w', Normal a) => k a w'
    | (w', Throw e) => (w', Throw e)
    end.

(** [try { body } catch (error) { handler }]. *)
Definition tryCatch {A} (body : M A) (handler : string -> M A) : M A :=
  fun w =>
    match body w with
    | (w', Throw e) => handler e w'
    | done => done
    end.

Definition logged (c : Call) (w : World) : World :=
  (fst w, (snd w ++ [c])%list).

Definition getField' (name : string) : M PDFField :=
  fun w => (logged (GetField name) w, getField lib (fst w) name).

Definition writer (c : Call)
           (op : PDFDocument lib -> PDFDocument lib * completion unit) : M unit :=
  fun w => let (doc, r) := op (fst w) in ((doc, (snd w ++ [c])%list), r).

Definition consoleWarn (pdfField formName error : string) : M unit :=
  fun w => (logged (ConsoleWarn pdfField formName error) w, Normal tt).

(** The body of the loop of [generatePdfBytes]. *)
Definition fillField (form : Form.t) (fieldData : FilledField.t) : M unit :=
  let name := FilledField.pdfField fieldData in
  let value := FilledField.value fieldData in
  if negb (String.eqb value "---") && negb (String.eqb value "[Manual Entry]") then
    tryCatch
      (bind (getField' name) (fun field =>
         match field with
         | PDFTextField => writer (SetText name value) (fun d => setText lib d name value)
         | PDFCheckBox =>
             if includes ["yes"; "true"; "on"] (toLowerCase value)
             then writer (Check name) (fun d => check lib d name)
             else writer (Uncheck name) (fun d => uncheck lib d name)
         | PDFRadioGroup => writer (Select name value) (fun d => select lib d name value)
         | PDFOtherField => ret tt
         end))
      (fun error => consoleWarn name (Form.name form) error)
  else ret tt.

Fixpoint fillAll (form : Form.t) (previewData : list FilledField.t) : M unit :=
  match previewData with
  | [] => ret tt
  | fieldData :: rest => bind (fillField form fieldData) (fun _ => fillAll form rest)
  end.

(** [pdfForm.flatten(); return await pdfDoc.save();] *)
Definition finish : M (Uint8Array lib) :=
  bind (writer Flatten (flatten lib)) (fun _ =>
    fun w => (logged Save w, save lib (fst w))).

Definition generatePdfBytes (store : TemplateService.t) (today : string)
           (form : Form.t) (customer : CustomerProfile.t)
  : list Call * completion (Uint8Array lib) :=
  let templateBase64 := TemplateService.getTemplateFile store (Form.id form) in
  match templateBase64 with
  | None | Some EmptyString =>
      ([], Throw ("Template file not found for form: " ++ Form.name form))
  | Some template =>
      match load lib template with
      | Throw e => ([], Throw e)
      | Normal pdfDoc =>
          match generatePreviewData store today (Form.id form) customer with
          | Throw e => ([], Throw e)
          | Normal previewData =>
              let (w, result) :=
                bind (fillAll form previewData) (fun _ => finish) (pdfDoc, []) in
              (snd w, result)
          end
      end
  end.

End Filling.

End PdfGenerationService.

(* ================================================================== *)
(** * Sample data *)
(* ================================================================== *)

Module Samples.

(** A profile with the default leaves of the initial profile except for
    the ones given. *)
Definition customer (full_name phone vin license : string)
           (financing_needed trade_in : bool) (purchase_type : string)
           (payoff_amount : Z) : CustomerProfile.t :=
  CustomerProfile.mk "c-1" None
    (PersonalInfo.mk full_name "" "" phone ""
       (Address.mk "" "" "" "" "")
       (DriversLicense.mk license "" "OH" None))
    (VehicleInfo.mk
       (InterestVehicle.mk "" "" "" "" vin)
       (TradeVehicle.mk "" "" "" "" "" payoff_amount)
       trade_in purchase_type)
    (FinancialInfo.mk (Employment.mk "" "" 0) financing_needed [])
    (SalesInfo.mk "initial_contact" SALESPERSON_NAME).

Definition blank : CustomerProfile.t :=
  customer "" "" "" "" false false "" 0.

(** VIN and license on file, financing requested as well. *)
Definition closingCustomer : CustomerProfile.t :=
  customer "Ada Moss" "555-0100" "1HGCM82633A004352" "OH123456" true false "" 0.

Definition financingCustomer : CustomerProfile.t :=
  customer "Ada Moss" "555-0100" "" "" true false "" 0.

Definition closingWithTradeIn : CustomerProfile.t :=
  customer "Ada Moss" "555-0100" "1HGCM82633A004352" "OH123456" false true "" 5000.

End Samples.


(* ================================================================== *)
(** * Vocabulary of the statements *)
(* ================================================================== *)

Module Catalog.

(** The catalog entries by name. *)
Definition credit_application : Form.t :=
  Form.mk "credit_application" "Credit Application (F&I)" (staged financing).
Definition reference_sheet : Form.t :=
  Form.mk "reference_sheet" "Reference Sheet" (staged financing).
Definition delivery_report : Form.t :=
  Form.mk "delivery_report" "Delivery Report" always.
Definition privacy_policy : Form.t :=
  Form.mk "privacy_policy" "Privacy Policy" always.
Definition deal_check_list : Form.t :=
  Form.mk "deal_check_list" "Deal Check List" always.
Definition oil_changes_form : Form.t :=
  Form.mk "oil_changes_form" "Oil Changes Form" conditional.
Definition payoff_authorization : Form.t :=
  Form.mk "payoff_authorization" "Payoff Authorization Sheet" conditional.

End Catalog.

Module Leaves.

Import CustomerProfile.

(** Leaves of the profile the rules read. *)
Definition interestVin (c : CustomerProfile.t) : string :=
  InterestVehicle.vin (VehicleInfo.interest_vehicle (vehicle_info c)).
Definition licenseNumber (c : CustomerProfile.t) : string :=
  DriversLicense.number (PersonalInfo.drivers_license (personal_info c)).
Definition financingNeeded (c : CustomerProfile.t) : bool :=
  FinancialInfo.financing_needed (financial_info c).
Definition fullName (c : CustomerProfile.t) : string :=
  PersonalInfo.full_name (personal_info c).
Definition phoneNumber (c : CustomerProfile.t) : string :=
  PersonalInfo.phone (personal_info c).

End Leaves.

(** The rule table of the readiness validator, written from the
    specification's table (section 4.5), to compare the code with. *)
Module ReadinessSpec.

Import CustomerProfile Leaves.

(** A row entry of the specification's rule table: when the requirement
    is unmet on a profile, and the warning it then contributes. *)
Record Requirement := mkRequirement
  { unmet : CustomerProfile.t -> bool; warning : string }.

Definition interestOf (c : CustomerProfile.t) : InterestVehicle.t :=
  VehicleInfo.interest_vehicle (vehicle_info c).
Definition tradeOf (c : CustomerProfile.t) : TradeVehicle.t :=
  VehicleInfo.trade_vehicle (vehicle_info c).
Definition licenseOf (c : CustomerProfile.t) : DriversLicense.t :=
  PersonalInfo.drivers_license (personal_info c).

Definition empty (s : string) : bool := String.eqb s "".

Definition needsName : Requirement :=
  mkRequirement (fun c => empty (fullName c)) "Missing customer name.".
Definition needsPhone : Requirement :=
  mkRequirement (fun c => empty (phoneNumber c)) "Missing phone number.".
Definition needsEmail : Requirement :=
  mkRequirement (fun c => empty (PersonalInfo.email (personal_info c)))
                "Missing email address.".
Definition needsLicenseNumber : Requirement :=
  mkRequirement (fun c => empty (DriversLicense.number (licenseOf c)))
                "Missing driver's license number.".
Definition needsLicenseExpiration : Requirement :=
  mkRequirement (fun c => empty (DriversLicense.expiration (licenseOf c)))
                "Missing license expiration date.".
(** "interest vehicle make+model": one requirement on the pair. *)
Definition needsMakeAndModel : Requirement :=
  mkRequirement (fun c => empty (InterestVehicle.make (interestOf c))
                          || empty (InterestVehicle.model (interestOf c)))
                "Missing vehicle of interest.".
Definition needsAddress : Requirement :=
  mkRequirement
    (fun c => empty (Address.full_address (PersonalInfo.address (personal_info c))))
    "Missing customer address.".
Definition needsEmployer : Requirement :=
  mkRequirement
    (fun c => empty (Employment.employer (FinancialInfo.employment (financial_info c))))
    "Missing employment information.".
Definition needsReference : Requirement :=
  mkRequirement
    (fun c => Nat.eqb (List.length (FinancialInfo.references (financial_info c))) 0)
    "At least one reference is required.".
Definition needsInterestVin : Requirement :=
  mkRequirement (fun c => empty (InterestVehicle.vin (interestOf c)))
                "Missing VIN for vehicle of interest.".
Definition needsModel : Requirement :=
  mkRequirement (fun c => empty (InterestVehicle.model (interestOf c)))
                "Missing vehicle model.".
Definition needsTradeVin : Requirement :=
  mkRequirement (fun c => empty (TradeVehicle.vin (tradeOf c)))
                "Missing trade-in vehicle VIN.".
Definition needsLienHolder : Requirement :=
  mkRequirement (fun c => empty (TradeVehicle.lien_holder (tradeOf c)))
                "Missing trade-in lien holder.".

(** The rule table as the specification prints it, row by row. *)
Definition ruleTable : list (string * list Requirement) :=
  [ ("interview_sheet", [needsName; needsPhone; needsEmail]);
    ("test_drive_agreement",
       [needsName; needsLicenseNumber; needsLicenseExpiration; needsMakeAndModel]);
    ("credit_application", [needsName; needsAddress; needsEmployer]);
    ("reference_sheet", [needsName; needsReference]);
    ("delivery_report", [needsName; needsInterestVin]);
    ("privacy_policy", [needsName]);
    ("deal_check_list", [needsName]);
    ("oil_changes_form", [needsName; needsModel]);
    ("payoff_authorization", [needsName; needsTradeVin; needsLienHolder]) ].

Fixpoint rulesFor (formId : string) (table : list (string * list Requirement))
  : option (list Requirement) :=
  match table with
  | [] => None
  | (id, rules) :: rest =>
      if String.eqb formId id then Some rules else rulesFor formId rest
  end.

(** What the table asks of the validator on one document. *)
Definition reported (rules : list Requirement) (c : CustomerProfile.t)
  : list string :=
  map warning (filter (fun r => unmet r c) rules).

End ReadinessSpec.

(** The loop of [deepMerge] over the properties of an object source,
    with the recursive call as a parameter: the shape the proofs about
    the merge go by. *)
Module MergeLoop.

Import CustomerService.

Fixpoint forEach (merge : value -> value -> value) (target : value)
         (props : list (string * value)) (output : list (string * value))
  : list (string * value) :=
  match props with
  | [] => output
  | (key, sourceValue) :: rest =>
      forEach merge target rest
        (match sourceValue with
         | VObject _ => set key (merge (get target key) sourceValue) output
         | _ => mergeLeaf key sourceValue output
         end)
  end.


End MergeLoop.

(** Sample data for the merge. *)
Module MergeSamples.





End MergeSamples.

(** The reduce of [generateFlatKeys] over the properties of an object,
    with the recursive call as a parameter. *)
Module FlattenLoop.

Definition emit (flatten : value -> string -> list string) (path key : string)
           (value : value) (acc : list string) : list string :=
  match value with
  | VObject _ => (acc ++ flatten value (Utils.joinPath path key))%list
  | _ => (acc ++ [Utils.joinPath path key])%list
  end.

Fixpoint reduce (flatten : value -> string -> list string) (path : string)
         (props : list (string * value)) (acc : list string) : list string :=
  match props with
  | [] => acc
  | (key, value) :: rest =>
      reduce flatten path rest (emit flatten path key value acc)
  end.

End FlattenLoop.

(** Vocabulary for the statements about the preview and the filling. *)
Module PreviewFacts.

Import FilledField.

(** What the preview shows for the date [today]. *)
Definition shown (today : string) : string :=
  if String.eqb today "" then "---" else today.

(** The entries of one field in a call that reads the date [today1] and
    in a call that reads the date [today2]: they have the same field
    name and the same provenance; under the current-date key each shows
    the date of its call, under any other provenance they show the same
    value. *)
Definition datedAlike (today1 today2 : string) (f1 f2 : FilledField.t) : Prop :=
  pdfField f1 = pdfField f2 /\
  sourcePath f1 = sourcePath f2 /\
  if String.eqb (sourcePath f1) "__CURRENT_DATE__"
  then value f1 = shown today1 /\ value f2 = shown today2
  else value f1 = value f2.

(** A template with one field, mapped to the current date. *)
Definition datedStore : TemplateService.t :=
  TemplateService.mk
    (fun _ => [("Date", "__CURRENT_DATE__")])
    (fun _ => ["Date"])
    (fun _ => None).

(** A template with a field called as a member every object inherits,
    and no mapping for it. *)
Definition constructorStore : TemplateService.t :=
  TemplateService.mk
    (fun _ => [])
    (fun _ => ["Name"; "constructor"])
    (fun _ => None).

(** A template with one field, mapped to the prototype accessor. *)
Definition protoStore : TemplateService.t :=
  TemplateService.mk
    (fun _ => [("Name", "__proto__")])
    (fun _ => ["Name"])
    (fun _ => None).

(** The fields the generator tries to write. *)
Definition eligible (f : FilledField.t) : bool :=
  negb (String.eqb (value f) "---") && negb (String.eqb (value f) "[Manual Entry]").

(** The template field a call addresses. *)
Definition fieldOf (c : PdfLib.Call) : option string :=
  match c with
  | PdfLib.GetField name | PdfLib.SetText name _ | PdfLib.Check name
  | PdfLib.Uncheck name | PdfLib.Select name _ => Some name
  | _ => None
  end.

(** The names [getField] was called with, in order. *)
Fixpoint lookedUp (log : list PdfLib.Call) : list string :=
  match log with
  | [] => []
  | PdfLib.GetField name :: rest => name :: lookedUp rest
  | _ :: rest => lookedUp rest
  end.

(** Every call that addresses a field addresses one of [names]. *)
Definition addressesOnly (names : list string) (log : list PdfLib.Call) : Prop :=
  Forall (fun c => match fieldOf c with
                   | Some name => In name names
                   | None => True
                   end) log.

End PreviewFacts.

(** What the generator is to do with the fields of a preview, call by
    call, against a library [lib] for a form called [formName]. *)
Module FillSpec.

Import FilledField PdfLib PreviewFacts.

(** The write that fits a field of kind [kind]: the value as text, a
    check or an uncheck by the value, the value as the option. *)
Definition writeFor (kind : PDFField) (f : FilledField.t) : option Call :=
  match kind with
  | PDFTextField => Some (SetText (pdfField f) (value f))
  | PDFCheckBox =>
      Some (if existsb (String.eqb (toLowerCase (value f))) ["yes"; "true"; "on"]
            then Check (pdfField f) else Uncheck (pdfField f))
  | PDFRadioGroup => Some (Select (pdfField f) (value f))
  | PDFOtherField => None
  end.

Section Library.

Context (lib : PdfLib.t) (formName : string).

(** The effect of a write on the document. *)
Definition perform (c : Call) (doc : PDFDocument lib)
  : PDFDocument lib * completion unit :=
  match c with
  | SetText name text => setText lib doc name text
  | Check name => check lib doc name
  | Uncheck name => uncheck lib doc name
  | Select name option => select lib doc name option
  | _ => (doc, Normal tt)
  end.

(** [Attempt f doc calls doc']: the calls made for the field [f] on
    the document [doc], and the document they leave. *)
Inductive Attempt (f : FilledField.t) (doc : PDFDocument lib)
  : list Call -> PDFDocument lib -> Prop :=
| Skipped :
    eligible f = false ->
    Attempt f doc [] doc
| LookupFailed (e : string) :
    eligible f = true ->
    getField lib doc (pdfField f) = Throw e ->
    Attempt f doc [GetField (pdfField f); ConsoleWarn (pdfField f) formName e] doc
| NothingToWrite (kind : PDFField) :
    eligible f = true ->
    getField lib doc (pdfField f) = Normal kind ->
    writeFor kind f = None ->
    Attempt f doc [GetField (pdfField f)] doc
| Written (kind : PDFField) (c : Call) (doc' : PDFDocument lib) :
    eligible f = true ->
    getField lib doc (pdfField f) = Normal kind ->
    writeFor kind f = Some c ->
    perform c doc = (doc', Normal tt) ->
    Attempt f doc [GetField (pdfField f); c] doc'
| WriteFailed (kind : PDFField) (c : Call) (doc' : PDFDocument lib) (e : string) :
    eligible f = true ->
    getField lib doc (pdfField f) = Normal kind ->
    writeFor kind f = Some c ->
    perform c doc = (doc', Throw e) ->
    Attempt f doc
            [GetField (pdfField f); c; ConsoleWarn (pdfField f) formName e] doc'.

(** Every field is attempted, in order, each on the document the
    previous one left. *)
Inductive Attempts
  : list FilledField.t -> PDFDocument lib -> list Call -> PDFDocument lib -> Prop :=
| Finished (doc : PDFDocument lib) :
    Attempts [] doc [] doc
| Attempted (f : FilledField.t) (rest : list FilledField.t)
            (doc doc' doc'' : PDFDocument lib) (calls calls' : list Call) :
    Attempt f doc calls doc' ->
    Attempts rest doc' calls' doc'' ->
    Attempts (f :: rest) doc (calls ++ calls')%list doc''.

End Library.

End FillSpec.

(** A small in-memory stand-in for pdf-lib, for running the generator: a
    document is the list of values written so far; the template has a
    text field "Name", a text field "Vin" that refuses every text, a
    check box "Financing" and nothing else. *)
Module ToyPdf.

Import PdfLib.

Definition Doc : Type := list (string * string).

Definition getField (d : Doc) (name : string) : completion PDFField :=
  if String.eqb name "Name" then Normal PDFTextField
  else if String.eqb name "Vin" then Normal PDFTextField
  else if String.eqb name "Financing" then Normal PDFCheckBox
  else Throw "no form field with this name".

Definition setText (d : Doc) (name text : string) : Doc * completion unit :=
  if String.eqb name "Vin" then (d, Throw "text exceeds the field's maximum length")
  else ((d ++ [(name, text)])%list, Normal tt).

Definition lib : PdfLib.t :=
  PdfLib.mk Doc Doc
    (fun _ => Normal [])
    getField
    setText
    (fun d name => ((d ++ [(name, "checked")])%list, Normal tt))
    (fun d name => ((d ++ [(name, "unchecked")])%list, Normal tt))
    (fun d name option => (d, Throw "no such option"))
    (fun d => (d, Normal tt))
    (fun d => Normal d).

(** The template service of the run: five discovered fields, of which
    "Ghost" is not on the template, "Vin" refuses its text, "SSN" is on
    the skip list and "Email" resolves to an empty value. *)
Definition store : TemplateService.t :=
  TemplateService.mk
    (fun _ => [("Ghost", "personal_info.phone");
               ("Vin", "vehicle_info.interest_vehicle.vin");
               ("SSN", "personal_info.full_name");
               ("Email", "personal_info.email");
               ("Name", "personal_info.full_name");
               ("Financing", "financial_info.financing_needed")])
    (fun _ => ["Ghost"; "Vin"; "SSN"; "Email"; "Name"; "Financing"])
    (fun _ => Some "JVBERi0xLjcK").

(** The preview of the closing customer under that template. *)
Definition preview : list FilledField.t :=
  [ FilledField.mk "Ghost" "555-0100" "personal_info.phone";
    FilledField.mk "Vin" "1HGCM82633A004352" "vehicle_info.interest_vehicle.vin";
    FilledField.mk "SSN" "[Manual Entry]" "N/A";
    FilledField.mk "Email" "---" "personal_info.email";
    FilledField.mk "Name" "Ada Moss" "personal_info.full_name";
    FilledField.mk "Financing" "Yes" "financial_info.financing_needed" ].

End ToyPdf.


(* ================================================================== *)
(** * components/FormsPanel.tsx: the list the panel shows *)
(* ================================================================== *)

Module FormsPanel.

Import FormService.

(** An element of [requiredFormsWithStatus]:
    [{ id, name, reason, ...readiness }]. *)
Record FormStatus := mkStatus
  { id : string; name : string; reason : string;
    isReady : bool; warnings : list string }.

(** [getRequiredForms(customer).map(({ form, reason }) => ...)]. *)
Definition requiredFormsWithStatus (customer : CustomerProfile.t)
  : list FormStatus :=
  map (fun r =>
         let readiness := getFormReadiness (Form.id (FormService.form r)) customer in
         mkStatus (Form.id (FormService.form r)) (Form.name (FormService.form r))
                  (FormService.reason r)
                  (FormService.isReady readiness) (FormService.warnings readiness))
      (getRequiredForms customer).

End FormsPanel.

(* ================================================================== *)
(** * App.tsx: the profile update made from a scanned license *)
(* ================================================================== *)

Module App.

(** The update [handleImageUpload] sends when the extraction returned
    both a number and an expiration date:
    [{ personal_info: { drivers_license: licenseUpdate } }] with
    [licenseUpdate = { number, expiration, state: 'OH', is_expired }].
    [is_expired] is the outcome of comparing the expiration date with
    today's date, taken as given. *)
Definition licenseUpdate (number expiration : string) (is_expired : bool) : value :=
  VObject [("number", VString number);
           ("expiration", VString expiration);
           ("state", VString "OH");
           ("is_expired", VBool is_expired)].

(** [extractedData.number && extractedData.expiration] guards the
    update; a missing member is [None]. *)
Definition licenseScanUpdate (number expiration : option string) (is_expired : bool)
  : option value :=
  match number, expiration with
  | Some n, Some e =>
      if nonEmpty n && nonEmpty e then
        Some (VObject [("personal_info",
                        VObject [("drivers_license", licenseUpdate n e is_expired)])])
      else None
  | _, _ => None
  end.

End App.

(* ================================================================== *)
(** * components/PDFPreviewModal.tsx: the batch behind "Generate all" *)
(* ================================================================== *)

Module PDFPreviewModal.

Import PdfGenerationService.

(** [s.replace(/\s/g, '_')]. *)
Fixpoint underscored (s : string) : string :=
  match s with
  | EmptyString => EmptyString
  | String c rest =>
      String (if isWhiteSpace c then "_"%char else c) (underscored rest)
  end.

(** [`${form.name.replace(/\s/g, '_')}.pdf`]. *)
Definition fileName (form : Form.t) : string :=
  underscored (Form.name form) ++ ".pdf".

(** [`${customerName}_Deal_Documents.zip`] with
    [customerName = full_name.replace(/\s/g, '_') || 'Customer']. *)
Definition downloadName (customer : CustomerProfile.t) : string :=
  let name :=
    underscored (PersonalInfo.full_name (CustomerProfile.personal_info customer)) in
  (if nonEmpty name then name else "Customer") ++ "_Deal_Documents.zip".

(** [`Generating ${i + 1}/${forms.length}: ${form.name}...`]. *)
Definition progressLabel (i total : nat) (form : Form.t) : string :=
  "Generating " ++ numberToString (Z.of_nat (i + 1)) ++ "/"
    ++ numberToString (Z.of_nat total) ++ ": " ++ Form.name form ++ "...".

Inductive GenerationStatus : Type := idle | generating | success | error.

Section Batch.

Context (lib : PdfLib.t).

(** The archive under construction: the [zip.file(name, bytes)] calls
    so far, in order. *)
Definition Zip : Type := list (string * PdfLib.Uint8Array lib).

(** What [handleGenerate] leaves behind: the final status and
    message, the progress labels shown, the library calls made for
    each document started, and the download offered, if any. *)
Record Outcome (Blob : Type) := mkOutcome
  { status : GenerationStatus;
    message : string;
    labels : list string;
    runs : list (list PdfLib.Call);
    download : option (string * Blob) }.

(** The [for] loop of [handleGenerate] from index [i]. *)
Fixpoint generateEach (store : TemplateService.t) (today : string)
         (customer : CustomerProfile.t) (total : nat)
         (forms : list Form.t) (i : nat) (zip : Zip)
         (labels : list string) (runs : list (list PdfLib.Call))
  : list string * list (list PdfLib.Call) * completion Zip :=
  match forms with
  | [] => (labels, runs, Normal zip)
  | form :: rest =>
      let labels := (labels ++ [progressLabel i total form])%list in
      let (log, pdfBytes) := generatePdfBytes lib store today form customer in
      let runs := (runs ++ [log])%list in
      match pdfBytes with
      | Throw e => (labels, runs, Throw e)
      | Normal bytes =>
          generateEach store today customer total rest (S i)
                       (zip ++ [(fileName form, bytes)])%list labels runs
      end
  end.

Definition handleGenerate (Blob : Type)
           (generateAsync : Zip -> completion Blob)
           (store : TemplateService.t) (today : string)
           (forms : list Form.t) (customer : CustomerProfile.t)
  : Outcome Blob :=
  let labels := ["Initializing..."] in
  match generateEach store today customer (List.length forms) forms 0 [] labels [] with
  | (labels, runs, Normal zip) =>
      let labels := (labels ++ ["Creating ZIP file..."])%list in
      match generateAsync zip with
      | Normal zipBlob =>
          mkOutcome Blob success "✓ Generation Complete!" labels runs
                    (Some (downloadName customer, zipBlob))
      | Throw e => mkOutcome Blob error ("Error: " ++ e) labels runs None
      end
  | (labels, runs, Throw e) =>
      mkOutcome Blob error ("Error: " ++ e) labels runs None
  end.

End Batch.

End PDFPreviewModal.

(* ================================================================== *)
(** * components/CustomerList.tsx: the search filter *)
(* ================================================================== *)

Module CustomerList.

(** [s.includes(sub)]: [sub] occurs somewhere in [s]. *)
Fixpoint includes (s sub : string) : bool :=
  String.prefix sub s
  || match s with
     | EmptyString => false
     | String _ rest => includes rest sub
     end.

Definition filteredCustomers (customers : list CustomerProfile.t)
           (searchQuery : string) : list CustomerProfile.t :=
  if negb (nonEmpty searchQuery) then customers
  else
    let lowercasedQuery := toLowerCase searchQuery in
    filter (fun c =>
              let p := CustomerProfile.personal_info c in
              includes (toLowerCase (PersonalInfo.full_name p)) lowercasedQuery
              || includes (PersonalInfo.phone p) lowercasedQuery
              || includes (toLowerCase (PersonalInfo.email p)) lowercasedQuery)
           customers.

End CustomerList.


(** Vocabulary for the further statements about the form rules. *)
Module FormFacts.

Import CustomerProfile FormService Leaves.

Definition stageForms (stage : FormStage) : list Form.t :=
  filter (fun f => FormTag_eqb (Form.stage f) (staged stage)) ALL_FORMS.

Definition alwaysForms : list Form.t :=
  filter (fun f => FormTag_eqb (Form.stage f) always) ALL_FORMS.

Definition requires (formId : string) (rs : list RequiredForm) : bool :=
  existsb (fun r => String.eqb (Form.id (form r)) formId) rs.

(** Every leaf some readiness rule reads is filled in. *)
Definition complete (c : CustomerProfile.t) : bool :=
  let interest := VehicleInfo.interest_vehicle (vehicle_info c) in
  let trade := VehicleInfo.trade_vehicle (vehicle_info c) in
  let license := PersonalInfo.drivers_license (personal_info c) in
  nonEmpty (fullName c) && nonEmpty (phoneNumber c)
  && nonEmpty (PersonalInfo.email (personal_info c))
  && nonEmpty (DriversLicense.number license)
  && nonEmpty (DriversLicense.expiration license)
  && nonEmpty (InterestVehicle.make interest)
  && nonEmpty (InterestVehicle.model interest)
  && nonEmpty (InterestVehicle.vin interest)
  && nonEmpty (Address.full_address (PersonalInfo.address (personal_info c)))
  && nonEmpty (Employment.employer (FinancialInfo.employment (financial_info c)))
  && negb (Nat.eqb (List.length (FinancialInfo.references (financial_info c))) 0)
  && nonEmpty (TradeVehicle.vin trade)
  && nonEmpty (TradeVehicle.lien_holder trade).

(** A buyer of a new car with a trade-in and every leaf on file. *)
Definition completeCustomer : CustomerProfile.t :=
  CustomerProfile.mk "c-9" None
    (PersonalInfo.mk "Ada Moss" "Ada" "Moss" "555-0100" "ada@example.org"
       (Address.mk "1 Elm St, Kent, OH 44240" "1 Elm St" "Kent" "OH" "44240")
       (DriversLicense.mk "OH123456" "01-31-2030" "OH" (Some false)))
    (VehicleInfo.mk
       (InterestVehicle.mk "2023" "Honda" "Civic" "S100" "1HGCM82633A004352")
       (TradeVehicle.mk "2018" "Toyota" "Camry" "4T1B11HK5JU000001" "First Bank" 5000)
       true "new")
    (FinancialInfo.mk (Employment.mk "Acme" "Engineer" 70000) true
       [Reference.mk "Lee Rao" "555-0111" "friend"])
    (SalesInfo.mk "closing" SALESPERSON_NAME).

End FormFacts.

(** Induction on untyped data that reaches the elements of arrays and the
    property values of objects. *)
Module ValueInduction.

Section Principle.

Variable P : value -> Prop.
Hypothesis onUndefined : P VUndefined.
Hypothesis onNull : P VNull.
Hypothesis onBool : forall b, P (VBool b).
Hypothesis onNumber : forall n, P (VNumber n).
Hypothesis onString : forall s, P (VString s).
Hypothesis onArray : forall xs, Forall P xs -> P (VArray xs).
Hypothesis onObject :
  forall props, Forall (fun kv => P (snd kv)) props -> P (VObject props).

Fixpoint nested (v : value) : P v :=
  match v with
  | VUndefined => onUndefined
  | VNull => onNull
  | VBool b => onBool b
  | VNumber n => onNumber n
  | VString s => onString s
  | VArray xs =>
      onArray xs
        ((fix all (xs : list value) : Forall P xs :=
            match xs with
            | [] => Forall_nil P
            | x :: rest => Forall_cons x (nested x) (all rest)
            end) xs)
  | VObject props =>
      onObject props
        ((fix all (props : list (string * value))
            : Forall (fun kv => P (snd kv)) props :=
            match props with
            | [] => Forall_nil _
            | kv :: rest =>
                Forall_cons (P := fun kv => P (snd kv)) kv (nested (snd kv)) (all rest)
            end) props)
  end.

End Principle.

End ValueInduction.

(** Vocabulary for the statements about paths. *)
Module PathFacts.

(** [segments.join('.')]. *)
Fixpoint joinKeys (keys : list string) : string :=
  match keys with
  | [] => ""
  | [key] => key
  | key :: rest => key ++ "." ++ joinKeys rest
  end.

Fixpoint dotFree (s : string) : bool :=
  match s with
  | EmptyString => true
  | String c rest => negb (Ascii.eqb c ".") && dotFree rest
  end.

Definition isPlainObject (v : value) : bool :=
  match v with VObject _ => true | _ => false end.

(** Keys a dot path can spell: at every plain object reached through
    plain objects, the keys are distinct, non-empty and free of dots. *)
Fixpoint plainKeys (v : value) : bool :=
  match v with
  | VObject props =>
      distinct (map fst props) &&
      (fix all (props : list (string * value)) : bool :=
         match props with
         | [] => true
         | (key, x) :: rest =>
             nonEmpty key && dotFree key && plainKeys x && all rest
         end) props
  | _ => true
  end.

(** The key lists of the leaves below a plain object, in key order. *)
Fixpoint leafPaths (v : value) : list (list string) :=
  match v with
  | VObject props =>
      (fix each (props : list (string * value)) : list (list string) :=
         match props with
         | [] => []
         | (key, x) :: rest =>
             ((match x with
               | VObject _ => map (cons key) (leafPaths x)
               | _ => [[key]]
               end) ++ each rest)%list
         end) props
  | _ => []
  end.

Definition nested : value :=
  VObject [("a", VObject [("b", VNumber 7); ("c", VArray [VObject [("d", VNull)]])]);
           ("e", VString "")].

End PathFacts.

(** Vocabulary for the further statements about the merge. *)
Module MergeFacts.

(** The profile with its license record replaced. *)
Definition withLicense (c : CustomerProfile.t) (d : DriversLicense.t)
  : CustomerProfile.t :=
  let p := CustomerProfile.personal_info c in
  CustomerProfile.mk (CustomerProfile.id c) (CustomerProfile.created_at c)
    (PersonalInfo.mk (PersonalInfo.full_name p) (PersonalInfo.first_name p)
       (PersonalInfo.last_name p) (PersonalInfo.phone p) (PersonalInfo.email p)
       (PersonalInfo.address p) d)
    (CustomerProfile.vehicle_info c) (CustomerProfile.financial_info c)
    (CustomerProfile.sales_info c).



(** The keys an update adds to an object that has the keys [present]:
    its own keys, in order, that are not present and whose value the
    merge assigns. *)
Definition addedKeys (present : list string) (props : list (string * value))
  : list string :=
  map fst
      (filter (fun kv => negb (existsb (String.eqb (fst kv)) present)
                         && CustomerService.assignable (snd kv))
              props).




End MergeFacts.

(** Vocabulary for the further statements about the preview and the
    generator. *)
Module FillFacts.

Import CustomerProfile.

(** The boolean leaves every profile has, by path. *)
Definition booleanLeaves (c : CustomerProfile.t) : list (string * bool) :=
  [ ("vehicle_info.trade_in", VehicleInfo.trade_in (vehicle_info c));
    ("financial_info.financing_needed",
     FinancialInfo.financing_needed (financial_info c)) ].

(** ["[object Object]"], [n] times, separated by commas. *)
Fixpoint objectList (n : nat) : string :=
  match n with
  | 0 => ""
  | 1 => "[object Object]"
  | S m => "[object Object]" ++ "," ++ objectList m
  end.

(** The saved mapping gives nothing for the field. *)
Definition unmapped (pdfField : string) (mappings : TemplateService.FieldMapping)
  : bool :=
  match TemplateService.mapped pdfField mappings with
  | Some path => negb (nonEmpty path)
  | None => true
  end.

Definition isFlatten (c : PdfLib.Call) : bool :=
  match c with PdfLib.Flatten => true | _ => false end.

Definition isSave (c : PdfLib.Call) : bool :=
  match c with PdfLib.Save => true | _ => false end.

(** A template service that has the file of every form and no mapping. *)
Definition unmappedStore : TemplateService.t :=
  TemplateService.mk
    (fun _ => [])
    (fun _ => ["Ghost"; "Vin"; "SSN"; "Email"; "Name"; "Financing"])
    (fun _ => Some "JVBERi0xLjcK").

(** A template service with a field mapped to the empty path, a field
    of the manual-entry list with a mapping, and a field with none. *)
Definition placeholderStore : TemplateService.t :=
  TemplateService.mk
    (fun _ => [("Email", ""); ("SSN", "personal_info.full_name")])
    (fun _ => ["Email"; "SSN"; "Name"])
    (fun _ => Some "JVBERi0xLjcK").

Definition withReferences : CustomerProfile.t :=
  CustomerProfile.mk "c-3" None
    (PersonalInfo.mk "Ada Moss" "" "" "" ""
       (Address.mk "" "" "" "" "") (DriversLicense.mk "" "" "OH" None))
    (VehicleInfo.mk
       (InterestVehicle.mk "" "" "" "" "") (TradeVehicle.mk "" "" "" "" "" 0)
       true "")
    (FinancialInfo.mk (Employment.mk "" "" 0) false
       [Reference.mk "Lee Rao" "555-0111" "friend";
        Reference.mk "Kim Ito" "555-0122" "sister"])
    (SalesInfo.mk "initial_contact" SALESPERSON_NAME).

End FillFacts.

(** More vocabulary for the statements about the generator. *)
Module CallFacts.

(** A call made while filling the field [name]. *)
Definition worksOn (name : string) (c : PdfLib.Call) : bool :=
  match c with
  | PdfLib.GetField n | PdfLib.SetText n _ | PdfLib.Check n | PdfLib.Uncheck n
  | PdfLib.Select n _ | PdfLib.ConsoleWarn n _ _ => String.eqb n name
  | PdfLib.Flatten | PdfLib.Save => false
  end.

(** A call of the filling loop, as opposed to the final two. *)
Definition isFieldWork (c : PdfLib.Call) : bool :=
  match c with
  | PdfLib.Flatten | PdfLib.Save => false
  | _ => true
  end.

End CallFacts.

(** Vocabulary for the statements about the batch. *)
Module BatchFacts.

Import PdfGenerationService PDFPreviewModal.

(** The calls and the result of generating one document. *)
Definition runOf (lib : PdfLib.t) (store : TemplateService.t) (today : string)
           (customer : CustomerProfile.t) (form : Form.t) : list PdfLib.Call :=
  fst (generatePdfBytes lib store today form customer).

Definition resultOf (lib : PdfLib.t) (store : TemplateService.t) (today : string)
           (customer : CustomerProfile.t) (form : Form.t)
  : completion (PdfLib.Uint8Array lib) :=
  snd (generatePdfBytes lib store today form customer).

Definition succeeds (lib : PdfLib.t) (store : TemplateService.t) (today : string)
           (customer : CustomerProfile.t) (form : Form.t) : Prop :=
  exists bytes, resultOf lib store today customer form = Normal bytes.

(** The archive entry of a document that was generated. *)
Definition entryOf (lib : PdfLib.t) (store : TemplateService.t) (today : string)
           (customer : CustomerProfile.t) (form : Form.t) : Zip lib :=
  match resultOf lib store today customer form with
  | Normal bytes => [(fileName form, bytes)]
  | Throw _ => []
  end.

(** The progress labels of consecutive documents from index [i]. *)
Fixpoint labelsFrom (i total : nat) (forms : list Form.t) : list string :=
  match forms with
  | [] => []
  | form :: rest => progressLabel i total form :: labelsFrom (S i) total rest
  end.

(** A template service without the file of the reference sheet. *)
Definition gappedStore : TemplateService.t :=
  TemplateService.mk
    (fun _ => [("Name", "personal_info.full_name")])
    (fun _ => ["Name"])
    (fun formId => if String.eqb formId "reference_sheet" then None
                   else Some "JVBERi0xLjcK").

(** Packaging that always succeeds: the archive is its entry list. *)
Definition packed (zip : Zip ToyPdf.lib) : completion (Zip ToyPdf.lib) := Normal zip.

End BatchFacts.

(* ================================================================== *)
(** * Properties of formService *)
(* ================================================================== *)

Module FormServiceProps.

Import CustomerProfile FormService Catalog Leaves.

Lemma nonEmpty_true (s : string) : nonEmpty s = true <-> s <> "".
Proof.
  unfold nonEmpty. rewrite negb_true_iff. apply String.eqb_neq.
Qed.

Lemma nonEmpty_false (s : string) : nonEmpty s = false <-> s = "".
Proof.
  unfold nonEmpty. rewrite negb_false_iff. apply String.eqb_eq.
Qed.

(** C1. [determineStage] answers closing when the interest-vehicle VIN
    and the license number are both non-empty; failing that, financing
    when financing is needed and name and phone are both non-empty;
    failing that, initial_contact.  A profile meeting both conditions is
    closing, and two profiles that agree on these five leaves get the
    same stage whatever their other fields hold. *)
Theorem determineStage_priority (c : CustomerProfile.t) :
  (interestVin c <> "" /\ licenseNumber c <> "" ->
     determineStage c = closing) /\
  (~ (interestVin c <> "" /\ licenseNumber c <> "") ->
     financingNeeded c = true /\ fullName c <> "" /\ phoneNumber c <> "" ->
     determineStage c = financing) /\
  (~ (interestVin c <> "" /\ licenseNumber c <> "") ->
     ~ (financingNeeded c = true /\ fullName c <> "" /\ phoneNumber c <> "") ->
     determineStage c = initial_contact) /\
  (interestVin c <> "" /\ licenseNumber c <> "" ->
     financingNeeded c = true /\ fullName c <> "" /\ phoneNumber c <> "" ->
     determineStage c <> financing) /\
  (forall c' : CustomerProfile.t,
     interestVin c' = interestVin c -> licenseNumber c' = licenseNumber c ->
     financingNeeded c' = financingNeeded c ->
     fullName c' = fullName c -> phoneNumber c' = phoneNumber c ->
     determineStage c' = determineStage c).
Proof.
  assert (Hsame : forall c' : CustomerProfile.t,
             interestVin c' = interestVin c -> licenseNumber c' = licenseNumber c ->
             financingNeeded c' = financingNeeded c ->
             fullName c' = fullName c -> phoneNumber c' = phoneNumber c ->
             determineStage c' = determineStage c).
  { intros c' Ev El Ef En Ep. unfold determineStage.
    fold (interestVin c') (licenseNumber c') (financingNeeded c')
         (fullName c') (phoneNumber c').
    now rewrite Ev, El, Ef, En, Ep. }
  revert Hsame. unfold determineStage.
  fold (interestVin c) (licenseNumber c) (financingNeeded c)
       (fullName c) (phoneNumber c).
  pose proof (nonEmpty_true (interestVin c)) as Hv.
  pose proof (nonEmpty_true (licenseNumber c)) as Hl.
  pose proof (nonEmpty_true (fullName c)) as Hn.
  pose proof (nonEmpty_true (phoneNumber c)) as Hp.
  destruct (nonEmpty (interestVin c)), (nonEmpty (licenseNumber c)),
    (financingNeeded c), (nonEmpty (fullName c)), (nonEmpty (phoneNumber c));
    cbn; intro Hsame; repeat split; try exact Hsame; intuition congruence.
Qed.

(** The closing sample also asks for financing and is closing. *)
Lemma determineStage_priority_witness :
  determineStage Samples.closingCustomer = closing.
Proof.
  refine (proj1 (determineStage_priority Samples.closingCustomer) _).
  split; intro H; discriminate H.
Defined.

(** C2. On a financing-stage profile without trade-in and with an empty
    purchase type, [getRequiredForms] is exactly the two financing forms
    of the catalog, in catalog order, each with reason
    "Stage: financing". *)
Theorem getRequiredForms_financing (c : CustomerProfile.t) :
  determineStage c = financing ->
  VehicleInfo.trade_in (vehicle_info c) = false ->
  VehicleInfo.purchase_type (vehicle_info c) = "" ->
  getRequiredForms c =
    [ mkRequired credit_application "Stage: financing";
      mkRequired reference_sheet "Stage: financing" ]
  /\ map form (getRequiredForms c) =
       filter (fun f => FormTag_eqb (Form.stage f) (staged financing)) ALL_FORMS.
Proof.
  intros Hs Ht Hp. unfold getRequiredForms. rewrite Hs, Ht, Hp.
  split; reflexivity.
Qed.

Lemma getRequiredForms_financing_witness :
  getRequiredForms Samples.financingCustomer =
    [ mkRequired credit_application "Stage: financing";
      mkRequired reference_sheet "Stage: financing" ].
Proof.
  apply (getRequiredForms_financing Samples.financingCustomer); reflexivity.
Defined.

(** C10. [getRequiredForms] never returns fewer than two entries. *)
Theorem getRequiredForms_at_least_two (c : CustomerProfile.t) :
  2 <= List.length (getRequiredForms c).
Proof.
  unfold getRequiredForms.
  destruct (determineStage c);
    destruct (String.eqb (VehicleInfo.purchase_type (vehicle_info c)) "new");
    destruct (VehicleInfo.trade_in (vehicle_info c));
    cbn; lia.
Qed.

(** C7, as stated, fails: on the closing sample with a trade-in the
    payoff authorization comes first and keeps the reason "Has Trade-In";
    the entries written by the closing rule are three other forms. *)
Lemma payoff_reason_not_overwritten :
  determineStage Samples.closingWithTradeIn = closing /\
  VehicleInfo.trade_in (vehicle_info Samples.closingWithTradeIn) = true /\
  getRequiredForms Samples.closingWithTradeIn =
    [ mkRequired payoff_authorization "Has Trade-In";
      mkRequired delivery_report "Required for Sale";
      mkRequired privacy_policy "Required for Sale";
      mkRequired deal_check_list "Required for Sale" ] /\
  ~ In (mkRequired payoff_authorization "Required for Sale")
       (getRequiredForms Samples.closingWithTradeIn).
Proof.
  repeat split; try reflexivity.
  cbn. intros [H | [H | [H | [H | []]]]]; discriminate H.
Qed.

(** C7, amended.  On a closing-stage profile with a trade-in the result
    is: the oil-changes form when the purchase type is "new", then the
    payoff authorization with reason "Has Trade-In", then the three
    always-forms with reason "Required for Sale".  The payoff
    authorization occurs once, at the place of its insertion, and the
    closing rule does not touch it. *)
Theorem getRequiredForms_closing_trade_in (c : CustomerProfile.t) :
  determineStage c = closing ->
  VehicleInfo.trade_in (vehicle_info c) = true ->
  getRequiredForms c =
    ((if String.eqb (VehicleInfo.purchase_type (vehicle_info c)) "new"
      then [mkRequired oil_changes_form "New Vehicle"] else [])
     ++ [ mkRequired payoff_authorization "Has Trade-In";
          mkRequired delivery_report "Required for Sale";
          mkRequired privacy_policy "Required for Sale";
          mkRequired deal_check_list "Required for Sale" ])%list
  /\ List.length
       (filter (fun r => String.eqb (Form.id (form r)) "payoff_authorization")
               (getRequiredForms c)) = 1.
Proof.
  intros Hs Ht. unfold getRequiredForms. rewrite Hs, Ht.
  destruct (String.eqb (VehicleInfo.purchase_type (vehicle_info c)) "new");
    split; reflexivity.
Qed.

Lemma getRequiredForms_closing_trade_in_witness :
  List.length
    (filter (fun r => String.eqb (Form.id (form r)) "payoff_authorization")
            (getRequiredForms Samples.closingWithTradeIn)) = 1.
Proof.
  apply (getRequiredForms_closing_trade_in Samples.closingWithTradeIn);
    reflexivity.
Defined.

End FormServiceProps.

Module ReadinessProps.

Import CustomerProfile FormService FormServiceProps Leaves ReadinessSpec.

Lemma reported_nil (rules : list Requirement) (c : CustomerProfile.t) :
  reported rules c = [] <-> forall r, In r rules -> unmet r c = false.
Proof.
  unfold reported. induction rules as [| r rules IH]; cbn.
  - split; [intros _ r [] | reflexivity].
  - destruct (unmet r c) eqn:E; cbn.
    + split; [discriminate |].
      intro H. specialize (H r (or_introl eq_refl)). congruence.
    + rewrite IH. split.
      * intros H r' [<- | Hin]; auto.
      * intros H r' Hin. apply H. now right.
Qed.

Lemma rulesFor_None (formId : string) :
  rulesFor formId ruleTable = None <-> ~ In formId (map Form.id ALL_FORMS).
Proof.
  cbn.
  repeat match goal with
         | |- context [String.eqb formId ?s] =>
             destruct (String.eqb_spec formId s) as [-> | ?]
         end;
    split; intro H; try discriminate H; try (exfalso; apply H; tauto);
    try reflexivity.
  intros [E | [E | [E | [E | [E | [E | [E | [E | [E | []]]]]]]]]];
    symmetry in E; contradiction.
Qed.

Lemma empty_nonEmpty (s : string) : negb (nonEmpty s) = empty s.
Proof. unfold nonEmpty, empty. apply negb_involutive. Qed.

Lemma length_zero_ltb (A : Type) (l : list A) :
  Nat.ltb (List.length l) 1 = Nat.eqb (List.length l) 0.
Proof. destruct l; reflexivity. Qed.

Lemma warnings_follow_table (formId : string) (c : CustomerProfile.t) :
  warnings (getFormReadiness formId c) =
    match rulesFor formId ruleTable with
    | Some rules => reported rules c
    | None => []
    end.
Proof.
  unfold getFormReadiness, ruleTable, rulesFor, reported, pushIf.
  cbn [warnings].
  rewrite !empty_nonEmpty, length_zero_ltb.
  repeat match goal with
         | |- context [String.eqb formId ?s] =>
             destruct (String.eqb formId s) eqn:?
         end; cbn [orb];
    cbn [map filter unmet warning needsName needsPhone needsEmail
           needsLicenseNumber needsLicenseExpiration needsMakeAndModel
           needsAddress needsEmployer needsReference needsInterestVin
           needsModel needsTradeVin needsLienHolder];
    unfold interestOf, tradeOf, licenseOf, fullName, phoneNumber;
    repeat match goal with
           | |- context [if ?b then _ else _] => destruct b eqn:?
           end;
    cbn in *; congruence.
Qed.

(** C3. For a document id of the rule table, the warnings of
    [getFormReadiness] are the warnings of all unmet requirements of its
    row, in the row's order, and [isReady] is false exactly when some
    requirement of the row is unmet; the table's ids are the nine
    catalog ids, and for any other id the result is ready with no
    warning. *)
Theorem getFormReadiness_rule_table (formId : string) (c : CustomerProfile.t) :
  match rulesFor formId ruleTable with
  | Some rules =>
      warnings (getFormReadiness formId c) = reported rules c /\
      (isReady (getFormReadiness formId c) = false <->
         exists r, In r rules /\ unmet r c = true)
  | None =>
      ~ In formId (map Form.id ALL_FORMS) /\
      getFormReadiness formId c = mkReadiness true []
  end.
Proof.
  pose proof (warnings_follow_table formId c) as Hw.
  pose proof (rulesFor_None formId) as Hnone.
  assert (Hready : isReady (getFormReadiness formId c) =
                   Nat.eqb (List.length (warnings (getFormReadiness formId c))) 0)
    by reflexivity.
  destruct (rulesFor formId ruleTable) as [rules |].
  - split; [exact Hw |].
    rewrite Hready, Hw. split.
    + intro H. apply Nat.eqb_neq in H.
      destruct (existsb (fun r => unmet r c) rules) eqn:E.
      * apply existsb_exists in E. exact E.
      * exfalso. apply H.
        assert (Hnil : reported rules c = []).
        { apply reported_nil. intros r Hin.
          destruct (unmet r c) eqn:Er; trivial.
          assert (existsb (fun r => unmet r c) rules = true)
            by (apply existsb_exists; eauto).
          congruence. }
        now rewrite Hnil.
    + intros [r [Hin Hr]]. apply Nat.eqb_neq. intro Hlen.
      apply length_zero_iff_nil in Hlen.
      rewrite reported_nil in Hlen. specialize (Hlen r Hin). congruence.
  - split; [now apply Hnone |].
    destruct (getFormReadiness formId c) as [ready ws] eqn:E.
    cbn in Hw, Hready. subst ws. now rewrite Hready.
Qed.

End ReadinessProps.


(* ================================================================== *)
(** * Properties of deepMerge *)
(* ================================================================== *)

Module MergeProps.

Import CustomerService MergeLoop.

















End MergeProps.


(* ================================================================== *)
(** * Properties of utils *)
(* ================================================================== *)

Module UtilsProps.

Import Utils.

Lemma step_normal (a : value) (part : string) :
  exists v, step (Normal a) part = Normal v.
Proof.
  unfold step. destruct (truthy a) eqn:E; [| eauto].
  destruct a; cbn in E |- *; try discriminate E; eauto.
Qed.

(** The guard [acc &&] keeps the reduce from reading a property of
    [undefined] or [null]: a walk over own data properties returns. *)
Lemma getValueByPath_guarded (obj : value) (path : string) :
  exists v, getValueByPath obj path = Normal v.
Proof.
  unfold getValueByPath. generalize (split "." path) as parts.
  intro parts. revert obj.
  induction parts as [| part rest IH]; intro obj; cbn [fold_left].
  - eauto.
  - destruct (step_normal obj part) as [v ->]. apply IH.
Qed.

(** A segment missing on a plain object resolves to [undefined]. *)
Lemma getValueByPath_missing_key (props : list (string * value)) :
  lookup "nickname" props = None ->
  getValueByPath (VObject props) "nickname" = Normal VUndefined.
Proof.
  intro H. unfold getValueByPath. cbn. now rewrite H.
Qed.

(** C5 at its failing inputs.  When a segment resolves to a falsy value
    and segments remain, [getValueByPath] returns that falsy value, not
    [undefined]: [false] under [trade_in], the empty string under
    [full_name], zero under [payoff_amount]; and [null] is returned as
    [null]. *)
Lemma getValueByPath_returns_falsy_node :
  getValueByPath INITIAL_CUSTOMER_PROFILE "vehicle_info.trade_in.x"
    = Normal (VBool false) /\
  getValueByPath INITIAL_CUSTOMER_PROFILE "personal_info.full_name.x"
    = Normal (VString "") /\
  getValueByPath INITIAL_CUSTOMER_PROFILE "vehicle_info.trade_vehicle.payoff_amount.x"
    = Normal (VNumber 0) /\
  getValueByPath (VObject [("a", VNull)]) "a.b" = Normal VNull /\
  getValueByPath INITIAL_CUSTOMER_PROFILE "personal_info.drivers_license.state.x"
    = Normal VUndefined.
Proof. repeat split; reflexivity. Qed.

Lemma generateFlatKeys_object (props : list (string * value)) (path : string) :
  generateFlatKeys (VObject props) path =
    FlattenLoop.reduce generateFlatKeys path props [].
Proof.
  cbn [generateFlatKeys].
  match goal with
  | |- ?loop props [] = _ =>
      assert (H : forall ps acc,
                 loop ps acc = FlattenLoop.reduce generateFlatKeys path ps acc)
  end.
  { induction ps as [| [key value] rest IH]; intro acc.
    - reflexivity.
    - cbn [FlattenLoop.reduce]. rewrite <- IH. reflexivity. }
  apply H.
Qed.

Lemma reduce_acc (path : string) (props : list (string * value))
      (acc : list string) :
  FlattenLoop.reduce generateFlatKeys path props acc =
    (acc ++ FlattenLoop.reduce generateFlatKeys path props [])%list.
Proof.
  revert acc. induction props as [| [key value] rest IH]; intro acc.
  - cbn. now rewrite app_nil_r.
  - cbn [FlattenLoop.reduce]. rewrite IH.
    rewrite (IH (FlattenLoop.emit _ _ _ _ [])).
    unfold FlattenLoop.emit. cbn [app]. rewrite app_assoc.
    destruct value; reflexivity.
Qed.

(** The contribution of the first property of an object. *)
Lemma generateFlatKeys_cons (key : string) (x : value)
      (rest : list (string * value)) (path : string) :
  generateFlatKeys (VObject ((key, x) :: rest)) path =
    ((match x with
      | VObject _ => generateFlatKeys x (joinPath path key)
      | _ => [joinPath path key]
      end) ++ generateFlatKeys (VObject rest) path)%list.
Proof.
  rewrite !generateFlatKeys_object. cbn [FlattenLoop.reduce].
  rewrite reduce_acc. unfold FlattenLoop.emit.
  destruct x; reflexivity.
Qed.

(** Every path of the default profile reads a leaf of an encoded
    profile. *)
Lemma resolves_on (c : CustomerProfile.t) :
  Forall (fun path =>
            exists v, getValueByPath (Encode.profile c) path = Normal v
                      /\ v <> VUndefined)
         (generateFlatKeys INITIAL_CUSTOMER_PROFILE "").
Proof.
  destruct c as [id created [? ? ? ? ? [? ? ? ? ?] [? ? ? expired]]
                    [[? ? ? ? ?] [? ? ? ? ? ?] ? ?] [[? ? ?] ? ?] [? ?]].
  destruct created, expired;
    repeat (apply Forall_cons; [eexists; split; [reflexivity | discriminate] |]);
    apply Forall_nil.
Qed.

(** C6. Each path that [getCustomerProfileFlatKeys] yields, on the first
    call or from the memo, resolves on every profile to a value other
    than [undefined].  A list-valued field contributes its own path and
    nothing below it, whatever its elements are: in any object such a
    field adds exactly one path, and the financial section of every
    profile, structured references included, flattens to the same five
    paths, the last of them "financial_info.references". *)
Theorem flat_keys_resolve (c : CustomerProfile.t) (warm : bool) :
  Forall (fun path =>
            exists v, getValueByPath (Encode.profile c) path = Normal v
                      /\ v <> VUndefined)
         (fst (getCustomerProfileFlatKeys
                 (if warm then snd (getCustomerProfileFlatKeys None) else None)))
  /\ (forall (key : string) (elements : list value)
             (rest : list (string * value)) (path : string),
         generateFlatKeys (VObject ((key, VArray elements) :: rest)) path =
           joinPath path key :: generateFlatKeys (VObject rest) path)
  /\ generateFlatKeys (Encode.financial_info (CustomerProfile.financial_info c))
                      "financial_info" =
       [ "financial_info.employment.employer";
         "financial_info.employment.position";
         "financial_info.employment.income";
         "financial_info.financing_needed";
         "financial_info.references" ]
  /\ In "financial_info.references" (fst (getCustomerProfileFlatKeys None)).
Proof.
  split; [| split; [| split]].
  - destruct warm; exact (resolves_on c).
  - intros key elements rest path. now rewrite generateFlatKeys_cons.
  - reflexivity.
  - cbn. tauto.
Qed.

End UtilsProps.


(* ================================================================== *)
(** * Properties of the preview *)
(* ================================================================== *)

Module PreviewProps.

Import FilledField PdfGenerationService PreviewFacts.

(** The members handled by [inheritedHandler] are those of
    [Object.prototype]. *)
Lemma inheritedHandler_members (name : string) (customer : Js.value) :
  inheritedHandler name customer <> None <-> inherited name = true.
Proof.
  unfold inheritedHandler, inherited, includes, objectPrototypeNames.
  cbn [existsb].
  repeat match goal with
         | |- context [String.eqb name ?s] =>
             destruct (String.eqb_spec name s) as [-> | _];
             [split; [intros _; reflexivity | intros _; discriminate] |]
         end.
  cbn. split; [intro H; now contradiction H | discriminate].
Qed.

Lemma shown_display (today : string) : display (VString today) = shown today.
Proof. unfold display, shown. now destruct (String.eqb today ""). Qed.

(** One field of the preview under two readings of the clock. *)
Lemma previewField_clock (mappings : TemplateService.FieldMapping)
      (customer : CustomerProfile.t) (today1 today2 pdfField : string)
      (f1 : FilledField.t) :
  previewField mappings today1 customer pdfField = Normal f1 ->
  exists f2,
    previewField mappings today2 customer pdfField = Normal f2 /\
    datedAlike today1 today2 f1 f2 /\ FilledField.pdfField f1 = pdfField.
Proof.
  assert (Hsame : forall f, FilledField.sourcePath f <> "__CURRENT_DATE__" ->
                            datedAlike today1 today2 f f).
  { intros f Hne. apply String.eqb_neq in Hne. unfold datedAlike.
    rewrite Hne. auto. }
  unfold previewField.
  destruct (includes FINANCIAL_FIELDS_TO_SKIP pdfField).
  { intros [= <-]. eexists. split; [reflexivity |].
    split; [apply Hsame; discriminate | reflexivity]. }
  destruct (TemplateService.mapped pdfField mappings) as [path |].
  2:{ destruct (inherited pdfField); [discriminate |].
      intros [= <-]. eexists. split; [reflexivity |].
      split; [apply Hsame; discriminate | reflexivity]. }
  destruct (nonEmpty path).
  2:{ intros [= <-]. eexists. split; [reflexivity |].
      split; [apply Hsame; discriminate | reflexivity]. }
  cbn [SPECIAL_HANDLERS handlerFor].
  destruct (String.eqb_spec "__CURRENT_DATE__" path) as [<- | Hne].
  { intros [= <-]. eexists. split; [reflexivity |].
    split; [| reflexivity]. unfold datedAlike.
    cbn [FilledField.pdfField FilledField.sourcePath FilledField.value].
    rewrite String.eqb_refl, !shown_display. auto. }
  intro H. exists f1. split; [exact H |].
  match type of H with
  | match ?X with _ => _ end = _ => destruct X as [v | e]; [| discriminate H]
  end.
  injection H as <-. split; [| reflexivity].
  apply Hsame. cbn. congruence.
Qed.

Lemma previewLoop_clock (mappings : TemplateService.FieldMapping)
      (customer : CustomerProfile.t) (today1 today2 : string)
      (fields : list string) :
  forall acc1 acc2 out1 : list FilledField.t,
    Forall2 (datedAlike today1 today2) acc1 acc2 ->
    previewLoop mappings today1 customer fields acc1 = Normal out1 ->
    exists out2,
      previewLoop mappings today2 customer fields acc2 = Normal out2 /\
      Forall2 (datedAlike today1 today2) out1 out2 /\
      map FilledField.pdfField out1 = (map FilledField.pdfField acc1 ++ fields)%list.
Proof.
  induction fields as [| pdfField rest IH]; intros acc1 acc2 out1 Hacc H;
    cbn [previewLoop] in H |- *.
  - injection H as <-. exists acc2. rewrite app_nil_r. auto.
  - destruct (previewField mappings today1 customer pdfField) as [f1 | e] eqn:E1;
      [| discriminate H].
    destruct (previewField_clock _ _ _ today2 _ _ E1) as [f2 [-> [Hsame Hname]]].
    destruct (IH (acc1 ++ [f1])%list (acc2 ++ [f2])%list out1)
      as [out2 [E2 [Hout Hnames]]]; trivial.
    { apply Forall2_app; auto. }
    exists out2. repeat split; trivial.
    rewrite Hnames, map_app, <- app_assoc. cbn. now rewrite Hname.
Qed.

(** A field that no own mapping covers and that is called as a member
    of [Object.prototype] makes the preview throw, and so does a field
    mapped to [__proto__]. *)
Example preview_throws_on_inherited_members :
  generatePreviewData constructorStore "11/2/2026" "interview_sheet" Samples.blank
    = Throw "TypeError" /\
  generatePreviewData protoStore "11/2/2026" "interview_sheet" Samples.blank
    = Throw "TypeError".
Proof. split; reflexivity. Qed.

(** C9, as stated, fails: with one field mapped to the current date,
    a call on 11/2/2026 and a call on 11/3/2026 give different values
    for the same mapping, profile and field list. *)
Lemma generatePreviewData_depends_on_date :
  generatePreviewData datedStore "11/2/2026" "interview_sheet" Samples.blank
    = Normal [FilledField.mk "Date" "11/2/2026" "__CURRENT_DATE__"] /\
  generatePreviewData datedStore "11/3/2026" "interview_sheet" Samples.blank
    = Normal [FilledField.mk "Date" "11/3/2026" "__CURRENT_DATE__"].
Proof. split; reflexivity. Qed.

(** C9, amended.  For a fixed mapping, profile and field list, when a
    call of [generatePreviewData] returns, so does any other call, and
    the output has one entry per discovered field, in the order of the
    field list; two calls that read the same date give identical
    output, and two calls that read different dates give the same field
    names and the same provenance in the same order, and the same
    values except for the fields mapped to the current-date key, each
    of which shows the date of its call. *)
Theorem generatePreviewData_clock (store : TemplateService.t) (formId : string)
        (customer : CustomerProfile.t) (today1 today2 : string)
        (out1 : list FilledField.t) :
  generatePreviewData store today1 formId customer = Normal out1 ->
  exists out2 : list FilledField.t,
    generatePreviewData store today2 formId customer = Normal out2 /\
    Forall2 (datedAlike today1 today2) out1 out2 /\
    map FilledField.pdfField out1 = TemplateService.getDiscoveredFields store formId /\
    (today1 = today2 -> out1 = out2).
Proof.
  unfold generatePreviewData. intro E1.
  destruct (previewLoop_clock (TemplateService.getMappingsForForm store formId)
              customer today1 today2
              (TemplateService.getDiscoveredFields store formId) [] [] out1)
    as [out2 [E2 [Hout Hnames]]]; [constructor | exact E1 |].
  exists out2. repeat split; trivial.
  intros <-. congruence.
Qed.

Lemma generatePreviewData_clock_witness :
  exists out2 : list FilledField.t,
    generatePreviewData datedStore "11/3/2026" "interview_sheet" Samples.blank
      = Normal out2 /\
    Forall2 (datedAlike "11/2/2026" "11/3/2026")
            [FilledField.mk "Date" "11/2/2026" "__CURRENT_DATE__"] out2 /\
    map FilledField.pdfField [FilledField.mk "Date" "11/2/2026" "__CURRENT_DATE__"]
      = ["Date"] /\
    ("11/2/2026" = "11/3/2026" ->
     [FilledField.mk "Date" "11/2/2026" "__CURRENT_DATE__"] = out2).
Proof.
  apply (generatePreviewData_clock
           datedStore "interview_sheet" Samples.blank "11/2/2026" "11/3/2026"
           [FilledField.mk "Date" "11/2/2026" "__CURRENT_DATE__"]).
  reflexivity.
Defined.

End PreviewProps.


(* ================================================================== *)
(** * Properties of the document generator *)
(* ================================================================== *)

Module GeneratorProps.

Import FilledField PdfLib PdfGenerationService PreviewFacts FillSpec.

Lemma lookedUp_app (l1 l2 : list Call) :
  lookedUp (l1 ++ l2) = (lookedUp l1 ++ lookedUp l2)%list.
Proof.
  induction l1 as [| c rest IH]; cbn; trivial.
  destruct c; cbn; now rewrite IH.
Qed.

Section WithLibrary.

Context (lib : PdfLib.t).

(** One iteration completes normally whatever the library calls do,
    looks the field up exactly when the field is eligible, and
    addresses no other field. *)
Lemma fillField_contained (form : Form.t) (f : FilledField.t) (w : World lib) :
  exists w',
    fillField lib form f w = (w', Normal tt) /\
    exists added : list Call,
      snd w' = (snd w ++ added)%list /\
      lookedUp added = (if eligible f then [FilledField.pdfField f] else []) /\
      addressesOnly (if eligible f then [FilledField.pdfField f] else []) added.
Proof.
  destruct w as [doc log].
  unfold fillField, eligible, addressesOnly.
  destruct (negb (String.eqb (value f) "---")
            && negb (String.eqb (value f) "[Manual Entry]")).
  2:{ exists (doc, log). split; [reflexivity |]. exists []. cbn [snd].
      rewrite app_nil_r. repeat split. constructor. }
  unfold tryCatch, bind, getField', writer, consoleWarn, logged, ret.
  cbn beta zeta iota delta [fst snd].
  destruct (getField lib doc (FilledField.pdfField f)) as [field | e].
  - destruct field; cbn beta zeta iota delta [fst snd];
      [ destruct (setText lib doc (FilledField.pdfField f) (value f))
          as [d [[] | e]]
      | destruct (includes ["yes"; "true"; "on"] (toLowerCase (value f)));
        cbn beta zeta iota delta [fst snd];
        [ destruct (check lib doc (FilledField.pdfField f)) as [d [[] | e]]
        | destruct (uncheck lib doc (FilledField.pdfField f)) as [d [[] | e]] ]
      | destruct (select lib doc (FilledField.pdfField f) (value f))
          as [d [[] | e]]
      | ];
      cbn [fst snd];
      eexists; (split; [reflexivity |]); cbn [snd];
      rewrite <- ?app_assoc; eexists; (split; [reflexivity |]);
      (split; [reflexivity |]);
      repeat (constructor; cbn; auto).
  - eexists. split; [reflexivity |]. cbn [snd].
    rewrite <- ?app_assoc. eexists. split; [reflexivity |].
    split; [reflexivity |]. repeat (constructor; cbn; auto).
Qed.

Lemma addressesOnly_weaken (names names' : list string) (log : list Call) :
  (forall n, In n names -> In n names') ->
  addressesOnly names log -> addressesOnly names' log.
Proof.
  intros Hsub H. unfold addressesOnly in *.
  eapply Forall_impl; [| exact H].
  intro c. cbn beta. destruct (fieldOf c); auto.
Qed.

(** The whole loop: no field failure leaves it. *)
Lemma fillAll_contained (form : Form.t) (previewData : list FilledField.t) :
  forall w : World lib,
  exists w',
    fillAll lib form previewData w = (w', Normal tt) /\
    exists added : list Call,
      snd w' = (snd w ++ added)%list /\
      lookedUp added = map FilledField.pdfField (filter eligible previewData) /\
      addressesOnly (map FilledField.pdfField (filter eligible previewData)) added.
Proof.
  induction previewData as [| f rest IH]; intro w; cbn [fillAll].
  - exists w. split; [reflexivity |]. exists []. rewrite app_nil_r.
    repeat split. constructor.
  - unfold bind.
    destruct (fillField_contained form f w) as [w1 [-> [a1 [E1 [L1 A1]]]]].
    destruct (IH w1) as [w2 [-> [a2 [E2 [L2 A2]]]]].
    exists w2. split; [reflexivity |].
    exists (a1 ++ a2)%list. rewrite E2, E1, app_assoc.
    split; [reflexivity |]. rewrite lookedUp_app, L1, L2.
    cbn [filter]. destruct (eligible f); cbn [map app].
    + split; [reflexivity |]. apply Forall_app. split.
      * eapply addressesOnly_weaken; [| exact A1].
        intros n [<- | []]. now left.
      * eapply addressesOnly_weaken; [| exact A2].
        intros n Hn. now right.
    + split; [reflexivity |]. apply Forall_app. split; trivial.
      eapply addressesOnly_weaken; [| exact A1]. intros n [].
Qed.

(** One iteration makes the calls of an attempt on its field, and
    completes normally whatever they do. *)
Lemma fillField_attempt (form : Form.t) (f : FilledField.t)
      (doc : PDFDocument lib) (log : list Call) :
  exists (doc' : PDFDocument lib) (calls : list Call),
    fillField lib form f (doc, log) = ((doc', (log ++ calls)%list), Normal tt) /\
    Attempt lib (Form.name form) f doc calls doc'.
Proof.
  unfold fillField. fold (eligible f).
  destruct (eligible f) eqn:Hel.
  2:{ exists doc, []. rewrite app_nil_r. split; [reflexivity |].
      now apply Skipped. }
  unfold tryCatch, bind, getField', writer, consoleWarn, logged, ret.
  cbn beta zeta iota delta [fst snd].
  destruct (getField lib doc (pdfField f)) as [kind | e] eqn:Hget.
  2:{ exists doc. eexists. cbn [fst snd]. rewrite <- app_assoc.
      split; [reflexivity |]. now apply LookupFailed. }
  assert (Hbox : writeFor PDFCheckBox f =
                 Some (if includes ["yes"; "true"; "on"] (toLowerCase (value f))
                       then Check (pdfField f) else Uncheck (pdfField f)))
    by reflexivity.
  destruct kind; cbn beta zeta iota delta [fst snd].
  - destruct (setText lib doc (pdfField f) (value f)) as [doc' [[] | e]] eqn:Hw;
      cbn [fst snd]; exists doc'; eexists; rewrite <- ?app_assoc;
      (split; [reflexivity |]);
      [ eapply Written with (kind := PDFTextField)
      | eapply WriteFailed with (kind := PDFTextField) ]; eauto; reflexivity.
  - destruct (includes ["yes"; "true"; "on"] (toLowerCase (value f)));
      cbn beta zeta iota delta [fst snd];
      [ destruct (check lib doc (pdfField f)) as [doc' [[] | e]] eqn:Hw
      | destruct (uncheck lib doc (pdfField f)) as [doc' [[] | e]] eqn:Hw ];
      cbn [fst snd]; exists doc'; eexists; rewrite <- ?app_assoc;
      (split; [reflexivity |]);
      [ eapply Written with (kind := PDFCheckBox)
      | eapply WriteFailed with (kind := PDFCheckBox)
      | eapply Written with (kind := PDFCheckBox)
      | eapply WriteFailed with (kind := PDFCheckBox) ]; eauto.
  - destruct (select lib doc (pdfField f) (value f)) as [doc' [[] | e]] eqn:Hw;
      cbn [fst snd]; exists doc'; eexists; rewrite <- ?app_assoc;
      (split; [reflexivity |]);
      [ eapply Written with (kind := PDFRadioGroup)
      | eapply WriteFailed with (kind := PDFRadioGroup) ]; eauto; reflexivity.
  - exists doc. eexists. split; [reflexivity |].
    now apply NothingToWrite with (kind := PDFOtherField).
Qed.

(** The loop attempts every field, in order. *)
Lemma fillAll_attempts (form : Form.t) (previewData : list FilledField.t) :
  forall (doc : PDFDocument lib) (log : list Call),
  exists (doc' : PDFDocument lib) (calls : list Call),
    fillAll lib form previewData (doc, log)
      = ((doc', (log ++ calls)%list), Normal tt) /\
    Attempts lib (Form.name form) previewData doc calls doc'.
Proof.
  induction previewData as [| f rest IH]; intros doc log; cbn [fillAll].
  - exists doc, []. rewrite app_nil_r. split; [reflexivity | constructor].
  - unfold bind.
    destruct (fillField_attempt form f doc log) as [doc1 [calls1 [-> H1]]].
    destruct (IH doc1 (log ++ calls1)%list) as [doc2 [calls2 [-> H2]]].
    exists doc2, (calls1 ++ calls2)%list. rewrite app_assoc.
    split; [reflexivity |]. econstructor; eauto.
Qed.

(** C8. With the template on file and loaded and the preview
    computed, [generatePdfBytes] runs the loop to its end whatever the
    field writes do.  The loop completes normally; its calls are those
    of one attempt per field of the preview, in order: none for a
    field whose value is "---" or "[Manual Entry]"; for any other
    field the look-up and, by the kind of the field found, the text,
    the check or uncheck, or the option written on the document; a
    look-up or write that throws is followed by a warning and the next
    field is attempted on the document as it stands.  The form is then
    flattened and the document saved from the state the loop left, so
    that when flattening and saving succeed the saved bytes are
    returned. *)
Theorem generatePdfBytes_contains_field_failures
        (store : TemplateService.t) (today : string) (form : Form.t)
        (customer : CustomerProfile.t) (template : string)
        (pdfDoc : PDFDocument lib) (previewData : list FilledField.t) :
  TemplateService.getTemplateFile store (Form.id form) = Some template ->
  template <> "" ->
  load lib template = Normal pdfDoc ->
  generatePreviewData store today (Form.id form) customer = Normal previewData ->
  exists (doc : PDFDocument lib) (log : list Call),
    fillAll lib form previewData (pdfDoc, []) = ((doc, log), Normal tt) /\
    Attempts lib (Form.name form) previewData pdfDoc log doc /\
    lookedUp log = map FilledField.pdfField (filter eligible previewData) /\
    addressesOnly (map FilledField.pdfField (filter eligible previewData)) log /\
    generatePdfBytes lib store today form customer =
      (let (w, result) := finish lib (doc, log) in (snd w, result)) /\
    (forall (flat : PDFDocument lib) (bytes : Uint8Array lib),
        flatten lib doc = (flat, Normal tt) ->
        save lib flat = Normal bytes ->
        generatePdfBytes lib store today form customer =
          ((log ++ [Flatten; Save])%list, Normal bytes)).
Proof.
  intros Hfile Hne Hload Hpreview.
  destruct (fillAll_attempts form previewData pdfDoc [])
    as [doc [log [Hfill Hattempts]]].
  cbn [app] in Hfill.
  destruct (fillAll_contained form previewData (pdfDoc, []))
    as [w' [Hfill' [added [Hlog [Hlooked Honly]]]]].
  rewrite Hfill in Hfill'. injection Hfill' as <-.
  cbn [snd app] in Hlog. subst added.
  assert (Hgen : generatePdfBytes lib store today form customer =
                 (let (w, result) := finish lib (doc, log) in (snd w, result))).
  { unfold generatePdfBytes. rewrite Hfile.
    destruct template as [| ch rest]; [contradiction |].
    rewrite Hload, Hpreview. unfold bind at 1. now rewrite Hfill. }
  exists doc, log. repeat split; trivial.
  intros flat bytes Hflat Hsave. rewrite Hgen.
  unfold finish, bind, writer, logged. cbn [fst snd].
  rewrite Hflat. cbn [fst snd]. rewrite Hsave.
  now rewrite <- app_assoc.
Qed.

End WithLibrary.

(** On the toy template the lookup of "Ghost" and the write of "Vin"
    fail, and the name and the check box are still written. *)
Lemma generatePdfBytes_contains_field_failures_witness :
  exists (doc : ToyPdf.Doc) (log : list Call),
    fillAll ToyPdf.lib Catalog.credit_application ToyPdf.preview ([], [])
      = ((doc, log), Normal tt) /\
    Attempts ToyPdf.lib "Credit Application (F&I)" ToyPdf.preview [] log doc /\
    lookedUp log = ["Ghost"; "Vin"; "Name"; "Financing"] /\
    addressesOnly ["Ghost"; "Vin"; "Name"; "Financing"] log /\
    generatePdfBytes ToyPdf.lib ToyPdf.store "11/2/2026"
                     Catalog.credit_application Samples.closingCustomer =
      (let (w, result) := finish ToyPdf.lib (doc, log) in (snd w, result)) /\
    (forall flat bytes : ToyPdf.Doc,
        (doc, Normal tt) = (flat, Normal tt) ->
        Normal flat = Normal bytes ->
        generatePdfBytes ToyPdf.lib ToyPdf.store "11/2/2026"
                         Catalog.credit_application Samples.closingCustomer =
          ((log ++ [Flatten; Save])%list, Normal bytes)).
Proof.
  refine (generatePdfBytes_contains_field_failures
            ToyPdf.lib ToyPdf.store "11/2/2026" Catalog.credit_application
            Samples.closingCustomer "JVBERi0xLjcK" [] ToyPdf.preview _ _ _ _).
  - reflexivity.
  - discriminate.
  - reflexivity.
  - reflexivity.
Defined.

(** The run of the toy template, call by call. *)
Example toy_run :
  generatePdfBytes ToyPdf.lib ToyPdf.store "11/2/2026"
                   Catalog.credit_application Samples.closingCustomer =
    ([ GetField "Ghost";
       ConsoleWarn "Ghost" "Credit Application (F&I)" "no form field with this name";
       GetField "Vin";
       SetText "Vin" "1HGCM82633A004352";
       ConsoleWarn "Vin" "Credit Application (F&I)"
                   "text exceeds the field's maximum length";
       GetField "Name"; SetText "Name" "Ada Moss";
       GetField "Financing"; Check "Financing";
       Flatten; Save ],
     Normal [("Name", "Ada Moss"); ("Financing", "checked")]).
Proof. reflexivity. Qed.

End GeneratorProps.


(* ================================================================== *)
(** * Further properties of the form rules *)
(* ================================================================== *)

Module FormRules.

Import CustomerProfile FormService Catalog Leaves FormFacts.

Ltac byCases c :=
  unfold getRequiredForms;
  destruct (determineStage c);
  destruct (String.eqb (VehicleInfo.purchase_type (vehicle_info c)) "new");
  destruct (VehicleInfo.trade_in (vehicle_info c)).

(** X1. [getRequiredForms] is a plain concatenation: the forms of the
    classified stage with reason "Stage: " and the stage name with its
    first underscore turned into a space, then the oil-changes form when
    the purchase type is "new", then the payoff authorization when there
    is a trade-in, then, at closing, the always-forms.  With this
    catalog no insertion ever meets an id already present. *)
Theorem getRequiredForms_concatenation (c : CustomerProfile.t) :
  getRequiredForms c =
    (map (fun f => mkRequired f ("Stage: " ++ replace "_" " " (stageName (determineStage c))))
         (stageForms (determineStage c))
     ++ (if String.eqb (VehicleInfo.purchase_type (vehicle_info c)) "new"
         then [mkRequired oil_changes_form "New Vehicle"] else [])
     ++ (if VehicleInfo.trade_in (vehicle_info c)
         then [mkRequired payoff_authorization "Has Trade-In"] else [])
     ++ (if FormStage_eqb (determineStage c) closing
         then map (fun f => mkRequired f "Required for Sale") alwaysForms
         else []))%list.
Proof. byCases c; reflexivity. Qed.

(** X2. The two conditional documents are required exactly when their
    condition holds, whatever the stage: the oil-changes form when the
    purchase type is "new", the payoff authorization when there is a
    trade-in. *)
Theorem conditional_forms_follow_conditions (c : CustomerProfile.t) :
  requires "oil_changes_form" (getRequiredForms c)
    = String.eqb (VehicleInfo.purchase_type (vehicle_info c)) "new" /\
  requires "payoff_authorization" (getRequiredForms c)
    = VehicleInfo.trade_in (vehicle_info c).
Proof. byCases c; split; reflexivity. Qed.

Lemma required_forms_in_catalog (c : CustomerProfile.t) :
  Forall (fun r => In (form r) ALL_FORMS) (getRequiredForms c).
Proof.
  byCases c; cbn; repeat (constructor; [cbn; tauto |]); constructor.
Qed.

(** X3. The result of [getRequiredForms] names no document twice, holds
    catalog entries only, and has at most five entries. *)
Theorem getRequiredForms_distinct_catalog_forms (c : CustomerProfile.t) :
  NoDup (map (fun r => Form.id (form r)) (getRequiredForms c)) /\
  Forall (fun r => In (form r) ALL_FORMS) (getRequiredForms c) /\
  List.length (getRequiredForms c) <= 5.
Proof.
  split; [| split; [apply required_forms_in_catalog |]].
  - byCases c; cbn; repeat constructor; cbn; intuition discriminate.
  - byCases c; cbn; lia.
Qed.

Lemma missing_name_first (formId : string) (c : CustomerProfile.t) :
  In formId (map Form.id ALL_FORMS) ->
  fullName c = "" ->
  isReady (getFormReadiness formId c) = false /\
  hd_error (warnings (getFormReadiness formId c)) = Some "Missing customer name.".
Proof.
  unfold fullName. intros Hin Hname.
  cbn in Hin.
  unfold getFormReadiness. rewrite Hname. cbn - [String.eqb].
  repeat (destruct Hin as [<- | Hin]; [ cbn; unfold pushIf;
    repeat match goal with
           | |- context [if ?b then _ else _] => destruct b
           end; cbn; split; reflexivity |]).
  destruct Hin.
Qed.

(** X4. In the list the forms panel shows, a customer without a name
    has no ready document: every required document is flagged, and its
    first warning is "Missing customer name.". *)
Theorem nameless_customer_has_no_ready_document (c : CustomerProfile.t) :
  fullName c = "" ->
  Forall (fun s => FormsPanel.isReady s = false /\
                   hd_error (FormsPanel.warnings s) = Some "Missing customer name.")
         (FormsPanel.requiredFormsWithStatus c).
Proof.
  intro Hname. unfold FormsPanel.requiredFormsWithStatus.
  apply Forall_map. cbn [FormsPanel.isReady FormsPanel.warnings].
  eapply Forall_impl; [| exact (required_forms_in_catalog c)].
  intros r Hr. apply missing_name_first; trivial.
  now apply in_map.
Qed.

Lemma nameless_customer_has_no_ready_document_witness :
  Forall (fun s => FormsPanel.isReady s = false /\
                   hd_error (FormsPanel.warnings s) = Some "Missing customer name.")
         (FormsPanel.requiredFormsWithStatus Samples.blank).
Proof.
  apply (nameless_customer_has_no_ready_document Samples.blank). reflexivity.
Defined.

(** X5. When every leaf that some readiness rule reads is filled in,
    [getFormReadiness] finds every document ready, with no warning,
    whatever the document id. *)
Theorem complete_profile_is_ready_for_every_form
        (c : CustomerProfile.t) (formId : string) :
  complete c = true ->
  getFormReadiness formId c = mkReadiness true [].
Proof.
  unfold complete, fullName, phoneNumber. intro H.
  repeat match type of H with
         | _ && _ = true => let H' := fresh "H" in
                            apply andb_true_iff in H as [H H']
         end.
  unfold getFormReadiness.
  rewrite ReadinessProps.length_zero_ltb.
  repeat match goal with
         | E : nonEmpty _ = true |- _ => rewrite E; clear E
         end.
  match goal with
  | E : negb _ = true |- _ => apply negb_true_iff in E; rewrite E; clear E
  end.
  cbn [negb orb pushIf].
  repeat match goal with
         | |- context [String.eqb formId ?s] => destruct (String.eqb formId s)
         end; reflexivity.
Qed.

Lemma complete_profile_is_ready_for_every_form_witness :
  getFormReadiness "payoff_authorization" completeCustomer = mkReadiness true [].
Proof.
  apply (complete_profile_is_ready_for_every_form completeCustomer). reflexivity.
Defined.

End FormRules.


(* ================================================================== *)
(** * Further properties of the path helpers *)
(* ================================================================== *)

Module PathProps.

Import Utils CustomerService PathFacts.

Lemma split_key (key rest : string) :
  dotFree key = true ->
  split "." (key ++ "." ++ rest) = key :: split "." rest.
Proof.
  induction key as [| c key IH]; cbn; intro H; trivial.
  apply andb_true_iff in H as [Hc Hk]. apply negb_true_iff in Hc.
  rewrite Hc. cbn in IH. now rewrite (IH Hk).
Qed.

Lemma split_last (key : string) :
  dotFree key = true -> split "." key = [key].
Proof.
  induction key as [| c key IH]; cbn; intro H; trivial.
  apply andb_true_iff in H as [Hc Hk]. apply negb_true_iff in Hc.
  now rewrite Hc, (IH Hk).
Qed.

Lemma split_joinKeys (keys : list string) :
  keys <> [] -> forallb dotFree keys = true ->
  split "." (joinKeys keys) = keys.
Proof.
  induction keys as [| key rest IH]; [congruence |].
  intros _ H. cbn [forallb] in H. apply andb_true_iff in H as [Hk Hrest].
  destruct rest as [| key' rest'].
  - cbn. now apply split_last.
  - change (joinKeys (key :: key' :: rest'))
      with (key ++ "." ++ joinKeys (key' :: rest')).
    rewrite (split_key _ _ Hk). f_equal. apply IH; [discriminate | exact Hrest].
Qed.

Lemma walk_leaf (keys : list string) :
  forall obj v, leafAt obj keys = Some v ->
                fold_left step keys (Normal obj) = Normal v.
Proof.
  induction keys as [| key rest IH]; intros obj v H.
  - now injection H as ->.
  - destruct obj; try discriminate H. cbn [leafAt] in H.
    destruct (lookup key props) as [x |] eqn:E; [| discriminate H].
    cbn [fold_left step truthy readProp get]. rewrite E. now apply IH.
Qed.

Lemma walk_falsy (keys : list string) (a : value) :
  truthy a = false -> fold_left step keys (Normal a) = Normal a.
Proof.
  intro H. induction keys as [| key rest IH]; cbn [fold_left step]; trivial.
  now rewrite H.
Qed.

Lemma resolves_leaf (obj v : value) (keys : list string) :
  keys <> [] -> forallb dotFree keys = true ->
  leafAt obj keys = Some v ->
  getValueByPath obj (joinKeys keys) = Normal v.
Proof.
  intros Hne Hdots Hleaf. unfold getValueByPath.
  rewrite (split_joinKeys _ Hne Hdots). now apply walk_leaf.
Qed.

(** X7. Along keys that hold no dot, [getValueByPath] on the dotted
    path follows nested plain objects key by key: it returns the value
    found under the last key, be it a leaf or a whole subtree. *)
Theorem getValueByPath_follows_keys (obj v : value) (keys : list string) :
  keys <> [] -> forallb dotFree keys = true ->
  leafAt obj keys = Some v ->
  getValueByPath obj (joinKeys keys) = Normal v.
Proof. apply resolves_leaf. Qed.

Lemma getValueByPath_follows_keys_witness :
  getValueByPath nested "a.c" = Normal (VArray [VObject [("d", VNull)]]).
Proof.
  apply (getValueByPath_follows_keys nested _ ["a"; "c"]);
    [discriminate | reflexivity | reflexivity].
Defined.

(** X8. A key missing on a plain object ends the walk with [undefined],
    however many segments follow, when the key names no member that
    objects inherit. *)
Theorem getValueByPath_missing_key_is_undefined
        (obj : value) (props : list (string * value))
        (keys : list string) (key : string) (rest : list string) :
  forallb dotFree (keys ++ key :: rest) = true ->
  leafAt obj keys = Some (VObject props) ->
  lookup key props = None ->
  inherited key = false ->
  getValueByPath obj (joinKeys (keys ++ key :: rest)) = Normal VUndefined.
Proof.
  intros Hdots Hleaf Hnone _. unfold getValueByPath.
  rewrite split_joinKeys; [| now destruct keys | exact Hdots].
  rewrite fold_left_app, (walk_leaf _ _ _ Hleaf).
  cbn [fold_left step truthy readProp get]. rewrite Hnone.
  now apply walk_falsy.
Qed.

Lemma getValueByPath_missing_key_is_undefined_witness :
  getValueByPath nested "a.x.y.z" = Normal VUndefined.
Proof.
  apply (getValueByPath_missing_key_is_undefined
           nested [("b", VNumber 7); ("c", VArray [VObject [("d", VNull)]])]
           ["a"] "x" ["y"; "z"]); reflexivity.
Defined.

Lemma string_append_assoc (a b c : string) : (a ++ b) ++ c = a ++ (b ++ c).
Proof. induction a as [| ch a IH]; cbn; [reflexivity | now rewrite IH]. Qed.

Lemma joinKeys_snoc (segs : list string) (key : string) :
  segs <> [] -> joinKeys (segs ++ [key]) = joinKeys segs ++ "." ++ key.
Proof.
  induction segs as [| seg rest IH]; [congruence |]. intros _.
  destruct rest as [| seg' rest'].
  - reflexivity.
  - change (joinKeys ((seg :: seg' :: rest') ++ [key]))
      with (seg ++ "." ++ joinKeys ((seg' :: rest') ++ [key])).
    rewrite IH by discriminate.
    change (joinKeys (seg :: seg' :: rest'))
      with (seg ++ "." ++ joinKeys (seg' :: rest')).
    now rewrite !string_append_assoc.
Qed.

Lemma joinKeys_nonEmpty (segs : list string) :
  segs <> [] -> forallb nonEmpty segs = true -> nonEmpty (joinKeys segs) = true.
Proof.
  destruct segs as [| seg rest]; [congruence |]. intros _ H.
  cbn [forallb] in H. apply andb_true_iff in H as [H _].
  destruct seg; [discriminate H |]. destruct rest; reflexivity.
Qed.

Lemma joinPath_joinKeys (segs : list string) (key : string) :
  forallb nonEmpty segs = true ->
  joinPath (joinKeys segs) key = joinKeys (segs ++ [key]).
Proof.
  intro H. unfold joinPath. destruct segs as [| seg rest].
  - reflexivity.
  - rewrite joinKeys_nonEmpty by (trivial; discriminate).
    now rewrite joinKeys_snoc by discriminate.
Qed.

Lemma plainKeys_cons (key : string) (x : value) (rest : list (string * value)) :
  plainKeys (VObject ((key, x) :: rest)) = true ->
  nonEmpty key = true /\ dotFree key = true /\ plainKeys x = true /\
  plainKeys (VObject rest) = true /\
  existsb (String.eqb key) (map fst rest) = false.
Proof.
  cbn [plainKeys map fst distinct]. intro H.
  repeat match type of H with
         | _ && _ = true => let H' := fresh "H" in
                            apply andb_true_iff in H as [H H']
         end.
  repeat match goal with
         | E : _ && _ = true |- _ =>
             let E' := fresh "H" in apply andb_true_iff in E as [E E']
         end.
  repeat split; trivial.
  - apply andb_true_iff. split; assumption.
  - now apply negb_true_iff.
Qed.

(** The flat keys of a plain object are the joined key lists of its
    leaves, below any prefix of non-empty segments. *)
Lemma generateFlatKeys_leafPaths (obj : value) :
  forall segs : list string,
    plainKeys obj = true -> forallb nonEmpty segs = true ->
    generateFlatKeys obj (joinKeys segs) =
      map (fun keys => joinKeys (segs ++ keys)) (leafPaths obj).
Proof.
  induction obj as [| | b | n | s | xs _ | props IH] using ValueInduction.nested;
    intros segs Hplain Hsegs; try reflexivity.
  induction props as [| [key x] rest IHrest].
  - reflexivity.
  - apply plainKeys_cons in Hplain as [Hne [Hdot [Hx [Hrest _]]]].
    inversion IH as [| kv l Hhead Htail]; subst.
    rewrite UtilsProps.generateFlatKeys_cons.
    change (leafPaths (VObject ((key, x) :: rest)))
      with ((match x with
             | VObject _ => map (cons key) (leafPaths x)
             | _ => [[key]]
             end) ++ leafPaths (VObject rest))%list.
    rewrite map_app, (IHrest Htail Hrest). f_equal.
    rewrite joinPath_joinKeys by exact Hsegs.
    destruct x; try reflexivity.
    cbn [snd] in Hhead. rewrite Hhead; trivial.
    + rewrite map_map. apply map_ext. intro keys. now rewrite <- app_assoc.
    + rewrite forallb_app. cbn. now rewrite Hsegs, Hne.
Qed.

Lemma leafPaths_sound (obj : value) :
  plainKeys obj = true ->
  forall keys, In keys (leafPaths obj) ->
    exists key rest leaf,
      keys = key :: rest /\ In key (map fst (ownProps obj)) /\
      isPlainObject obj = true /\
      leafAt obj keys = Some leaf /\ isPlainObject leaf = false /\
      forallb dotFree keys = true.
Proof.
  induction obj as [| | b | n | s | xs _ | props IH] using ValueInduction.nested;
    intros Hplain keys Hin; try destruct Hin.
  induction props as [| [key x] rest IHrest]; [destruct Hin |].
  apply plainKeys_cons in Hplain as [Hne [Hdot [Hx [Hrest Hfresh]]]].
  inversion IH as [| kv l Hhead Htail]; subst. cbn [snd] in Hhead.
  change (leafPaths (VObject ((key, x) :: rest)))
    with ((match x with
           | VObject _ => map (cons key) (leafPaths x)
           | _ => [[key]]
           end) ++ leafPaths (VObject rest))%list in Hin.
  apply in_app_or in Hin as [Hin | Hin].
  - assert (Hself : lookup key ((key, x) :: rest) = Some x)
      by (cbn; now rewrite String.eqb_refl).
    destruct x as [| | b | n | s | xs | inner];
      try (destruct Hin as [<- | []];
           exists key, [];
           eexists; repeat split;
           [ now left | cbn [leafAt]; rewrite Hself; reflexivity
           | reflexivity | cbn; now rewrite Hdot ]).
    apply in_map_iff in Hin as [keys' [<- Hin']].
    destruct (Hhead Hx keys' Hin')
      as [k' [r' [leaf [E [_ [_ [Hleaf [Hobj Hd]]]]]]]].
    exists key, keys', leaf. repeat split; trivial.
    + now left.
    + cbn [leafAt]. now rewrite Hself.
    + cbn [forallb]. now rewrite Hdot, Hd.
  - destruct (IHrest Htail Hrest Hin)
      as [k' [r' [leaf [E [Hk [_ [Hleaf [Hobj Hd]]]]]]]].
    exists k', r', leaf. repeat split; trivial.
    + now right.
    + subst keys. cbn [leafAt lookup] in Hleaf |- *.
      destruct (String.eqb_spec key k') as [-> | _]; [| exact Hleaf].
      exfalso. cbn [ownProps] in Hk.
      assert (existsb (String.eqb k') (map fst rest) = true).
      { apply existsb_exists. exists k'. split; trivial. apply String.eqb_refl. }
      congruence.
Qed.

(** X9. Flattening then resolving: on a plain object whose keys are
    distinct, non-empty and free of dots, every path that
    [generateFlatKeys] lists is the dotted spelling of a key list that
    leads to a leaf, and [getValueByPath] returns that leaf for it. *)
Theorem flat_keys_resolve_to_leaves (obj : value) :
  plainKeys obj = true ->
  Forall (fun path =>
            exists keys leaf,
              path = joinKeys keys /\ leafAt obj keys = Some leaf /\
              isPlainObject leaf = false /\
              getValueByPath obj path = Normal leaf)
         (generateFlatKeys obj "").
Proof.
  intro Hplain.
  pose proof (generateFlatKeys_leafPaths obj [] Hplain eq_refl) as E.
  cbn [joinKeys app] in E. rewrite E.
  apply Forall_forall. intros path Hin.
  apply in_map_iff in Hin as [keys [<- Hin]].
  destruct (leafPaths_sound obj Hplain keys Hin)
    as [k [r [leaf [Ek [_ [_ [Hleaf [Hobj Hd]]]]]]]].
  exists keys, leaf. repeat split; trivial.
  apply resolves_leaf; trivial. subst keys. discriminate.
Qed.

Lemma flat_keys_resolve_to_leaves_witness :
  Forall (fun path =>
            exists keys leaf,
              path = joinKeys keys /\ leafAt nested keys = Some leaf /\
              isPlainObject leaf = false /\
              getValueByPath nested path = Normal leaf)
         (generateFlatKeys nested "").
Proof. apply (flat_keys_resolve_to_leaves nested). reflexivity. Defined.

Lemma leafPaths_complete (keys : list string) :
  forall obj leaf,
    keys <> [] -> leafAt obj keys = Some leaf -> isPlainObject leaf = false ->
    In keys (leafPaths obj).
Proof.
  induction keys as [| key rest IH]; intros obj leaf Hne Hleaf Hobj; [congruence |].
  destruct obj as [| | | | | | props]; try discriminate Hleaf.
  cbn [leafAt] in Hleaf.
  destruct (lookup key props) as [x |] eqn:E; [| discriminate Hleaf].
  induction props as [| [k y] more IHmore]; [discriminate E |].
  change (leafPaths (VObject ((k, y) :: more)))
    with ((match y with
           | VObject _ => map (cons k) (leafPaths y)
           | _ => [[k]]
           end) ++ leafPaths (VObject more))%list.
  apply in_or_app. cbn [lookup] in E.
  destruct (String.eqb_spec k key) as [-> | _].
  - left. injection E as ->.
    destruct rest as [| key' rest'].
    + injection Hleaf as ->. destruct leaf; try (now left). discriminate Hobj.
    + destruct x; try discriminate Hleaf.
      apply in_map. eapply IH; eauto. discriminate.
  - right. now apply IHmore.
Qed.

(** X10. Nothing is left out: on such an object, every leaf reached
    through nested plain objects has its dotted path among the flat
    keys; in particular a list is listed under its own key. *)
Theorem every_leaf_has_a_flat_key (obj leaf : value) (keys : list string) :
  plainKeys obj = true ->
  keys <> [] -> leafAt obj keys = Some leaf -> isPlainObject leaf = false ->
  In (joinKeys keys) (generateFlatKeys obj "").
Proof.
  intros Hplain Hne Hleaf Hobj.
  pose proof (generateFlatKeys_leafPaths obj [] Hplain eq_refl) as E.
  cbn [joinKeys app] in E. rewrite E.
  apply in_map_iff. exists keys. split; [reflexivity |].
  eapply leafPaths_complete; eauto.
Qed.

Lemma every_leaf_has_a_flat_key_witness :
  In "a.c" (generateFlatKeys nested "").
Proof.
  apply (every_leaf_has_a_flat_key nested (VArray [VObject [("d", VNull)]]) ["a"; "c"]);
    [reflexivity | discriminate | reflexivity | reflexivity].
Defined.

End PathProps.


(* ================================================================== *)
(** * Further properties of the merge *)
(* ================================================================== *)

Module MergeRules.

Import CustomerService MergeLoop MergeProps MergeFacts PathFacts.






Lemma addedKeys_same_keys (present present' : list string)
      (props : list (string * value)) :
  (forall k, existsb (String.eqb k) present' = existsb (String.eqb k) present) ->
  addedKeys present' props = addedKeys present props.
Proof.
  intro Hsame. unfold addedKeys. f_equal. apply filter_ext.
  intros [k v]. cbn. now rewrite Hsame.
Qed.









(** X14. The update made from a scanned license is sent only when both
    the number and the expiration date were extracted; merged into a
    stored profile it replaces the license record by the scanned number
    and date, the state "OH" and the expiry flag, and changes nothing
    else of the profile. *)
Theorem license_scan_replaces_license_only
        (c : CustomerProfile.t) (number expiration : string) (is_expired : bool) :
  number <> "" -> expiration <> "" ->
  exists update,
    App.licenseScanUpdate (Some number) (Some expiration) is_expired = Some update /\
    deepMerge (Encode.profile c) update =
      Encode.profile
        (withLicense c (DriversLicense.mk number expiration "OH" (Some is_expired))).
Proof.
  intros Hn He.
  apply FormServiceProps.nonEmpty_true in Hn, He.
  unfold App.licenseScanUpdate. rewrite Hn, He. cbn [andb].
  eexists. split; [reflexivity |].
  destruct c as [id created [? ? ? ? ? ? [? ? ? expired]] ? ? ?].
  destruct created, expired;
    cbn; unfold mergeLeaf; cbn; rewrite Hn, He; cbn; reflexivity.
Qed.

Lemma license_scan_replaces_license_only_witness :
  exists update,
    App.licenseScanUpdate (Some "OH123456") (Some "01-31-2030") false = Some update /\
    deepMerge (Encode.profile Samples.blank) update =
      Encode.profile
        (withLicense Samples.blank
           (DriversLicense.mk "OH123456" "01-31-2030" "OH" (Some false))).
Proof.
  apply (license_scan_replaces_license_only Samples.blank); discriminate.
Defined.

End MergeRules.


(* ================================================================== *)
(** * Further properties of the preview *)
(* ================================================================== *)

Module PreviewRules.

Import FilledField PdfGenerationService PreviewFacts FillFacts.

(** The loop appends the entry of each discovered field, in order. *)
Lemma previewLoop_entries (mappings : TemplateService.FieldMapping)
      (today : string) (customer : CustomerProfile.t) (fields : list string) :
  forall acc out,
    previewLoop mappings today customer fields acc = Normal out ->
    exists entries,
      out = (acc ++ entries)%list /\
      Forall2 (fun p f => previewField mappings today customer p = Normal f)
              fields entries.
Proof.
  induction fields as [| p rest IH]; intros acc out H; cbn [previewLoop] in H.
  - injection H as <-. exists []. rewrite app_nil_r. split; [trivial | constructor].
  - destruct (previewField mappings today customer p) as [f | e] eqn:E;
      [| discriminate H].
    destruct (IH _ _ H) as [entries [-> Hall]].
    exists (f :: entries). rewrite <- app_assoc. split; [reflexivity |].
    constructor; trivial.
Qed.

Lemma preview_entries (store : TemplateService.t) (today formId : string)
      (customer : CustomerProfile.t) (out : list FilledField.t) :
  generatePreviewData store today formId customer = Normal out ->
  Forall2 (fun p f =>
             previewField (TemplateService.getMappingsForForm store formId)
                          today customer p = Normal f)
          (TemplateService.getDiscoveredFields store formId) out.
Proof.
  unfold generatePreviewData. intro E.
  destruct (previewLoop_entries _ _ _ _ _ _ E) as [entries [-> Hall]].
  exact Hall.
Qed.

Lemma previewField_name (mappings : TemplateService.FieldMapping)
      (today : string) (customer : CustomerProfile.t) (p : string) (f : FilledField.t) :
  previewField mappings today customer p = Normal f -> pdfField f = p.
Proof.
  unfold previewField.
  destruct (includes FINANCIAL_FIELDS_TO_SKIP p); [now intros [= <-] |].
  destruct (TemplateService.mapped p mappings) as [path |].
  - destruct (nonEmpty path); [| now intros [= <-]].
    match goal with
    | |- match ?X with _ => _ end = _ -> _ => destruct X; [now intros [= <-] | discriminate]
    end.
  - destruct (inherited p); [discriminate | now intros [= <-]].
Qed.

Lemma previewField_skipped (mappings : TemplateService.FieldMapping)
      (today : string) (customer : CustomerProfile.t) (p : string) (f : FilledField.t) :
  previewField mappings today customer p = Normal f ->
  includes FINANCIAL_FIELDS_TO_SKIP p = true ->
  value f = "[Manual Entry]" /\ sourcePath f = "N/A".
Proof.
  unfold previewField. intros H Hskip. rewrite Hskip in H.
  injection H as <-. split; reflexivity.
Qed.

Lemma previewField_unmapped (mappings : TemplateService.FieldMapping)
      (today : string) (customer : CustomerProfile.t) (p : string) (f : FilledField.t) :
  previewField mappings today customer p = Normal f ->
  includes FINANCIAL_FIELDS_TO_SKIP p = false ->
  unmapped p mappings = true ->
  value f = "---" /\ sourcePath f = "Not Mapped".
Proof.
  unfold previewField, unmapped. intros H Hskip Hun. rewrite Hskip in H.
  destruct (TemplateService.mapped p mappings) as [path |].
  - apply negb_true_iff in Hun. rewrite Hun in H. injection H as <-.
    split; reflexivity.
  - destruct (inherited p); [discriminate H |]. injection H as <-.
    split; reflexivity.
Qed.

(** X15. In a preview that [generatePreviewData] returns, a field of
    the manual-entry list reads "[Manual Entry]" with provenance "N/A",
    whatever is mapped to it, and any other field without a saved
    mapping, or mapped to the empty path, reads "---" with provenance
    "Not Mapped". *)
Theorem preview_placeholders (store : TemplateService.t) (today formId : string)
        (customer : CustomerProfile.t) (out : list FilledField.t) :
  generatePreviewData store today formId customer = Normal out ->
  Forall (fun f =>
            if includes FINANCIAL_FIELDS_TO_SKIP (pdfField f)
            then value f = "[Manual Entry]" /\ sourcePath f = "N/A"
            else unmapped (pdfField f)
                          (TemplateService.getMappingsForForm store formId) = true ->
                 value f = "---" /\ sourcePath f = "Not Mapped")
         out.
Proof.
  intro E. pose proof (preview_entries _ _ _ _ _ E) as Hall. clear E.
  induction Hall as [| p f ps fs Hf _ IH]; constructor; [| exact IH].
  rewrite (previewField_name _ _ _ _ _ Hf).
  destruct (includes FINANCIAL_FIELDS_TO_SKIP p) eqn:Hskip.
  - eapply previewField_skipped; eauto.
  - intro Hun. eapply previewField_unmapped; eauto.
Qed.

Lemma preview_placeholders_witness :
  Forall (fun f =>
            if includes FINANCIAL_FIELDS_TO_SKIP (pdfField f)
            then value f = "[Manual Entry]" /\ sourcePath f = "N/A"
            else unmapped (pdfField f) [("Email", ""); ("SSN", "personal_info.full_name")]
                 = true ->
                 value f = "---" /\ sourcePath f = "Not Mapped")
         [ FilledField.mk "Email" "---" "Not Mapped";
           FilledField.mk "SSN" "[Manual Entry]" "N/A";
           FilledField.mk "Name" "---" "Not Mapped" ].
Proof.
  apply (preview_placeholders placeholderStore "11/2/2026" "credit_application"
                              Samples.closingCustomer).
  reflexivity.
Defined.

Lemma references_toString (rs : list Reference.t) :
  toString (VArray (map Encode.reference rs)) = objectList (List.length rs).
Proof.
  induction rs as [| r rest IH]; [reflexivity |].
  destruct rest as [| r' rest']; [reflexivity |].
  change (toString (VArray (map Encode.reference (r :: r' :: rest'))))
    with ("[object Object]" ++ "," ++
          toString (VArray (map Encode.reference (r' :: rest')))).
  now rewrite IH.
Qed.

Lemma resolve_references (c : CustomerProfile.t) :
  Utils.getValueByPath (Encode.profile c) "financial_info.references" =
    Normal (VArray (map Encode.reference
                        (FinancialInfo.references (CustomerProfile.financial_info c)))).
Proof.
  destruct c as [id created ? ? [? ? refs] ?]. destruct created; reflexivity.
Qed.

(** X16. A field mapped to the reference list never shows reference
    data: with [n] references on file its preview value is
    "[object Object]" [n] times, separated by commas, and the empty
    string, not "---", when there is none. *)
Theorem references_preview_as_object_tags
        (mappings : TemplateService.FieldMapping) (today : string)
        (c : CustomerProfile.t) (p : string) :
  includes FINANCIAL_FIELDS_TO_SKIP p = false ->
  TemplateService.mapped p mappings = Some "financial_info.references" ->
  previewField mappings today c p =
    Normal (FilledField.mk p
              (objectList (List.length
                             (FinancialInfo.references (CustomerProfile.financial_info c))))
              "financial_info.references").
Proof.
  intros Hskip Hmap. unfold previewField. rewrite Hskip, Hmap.
  cbn [nonEmpty String.eqb negb Ascii.eqb Bool.eqb SPECIAL_HANDLERS handlerFor].
  cbn - [Utils.getValueByPath Encode.profile display].
  rewrite resolve_references. unfold display.
  now rewrite references_toString.
Qed.

Lemma references_preview_as_object_tags_witness :
  previewField [("Refs", "financial_info.references")] "11/2/2026"
               withReferences "Refs" =
    Normal (FilledField.mk "Refs" "[object Object],[object Object]"
                           "financial_info.references").
Proof.
  apply (references_preview_as_object_tags
           [("Refs", "financial_info.references")] "11/2/2026" withReferences "Refs");
    reflexivity.
Defined.

End PreviewRules.


(* ================================================================== *)
(** * Further properties of the document generator *)
(* ================================================================== *)

Module GeneratorRules.

Import FilledField PdfLib PdfGenerationService PreviewFacts FillFacts CallFacts.

Lemma fillField_calls (lib : PdfLib.t) (form : Form.t) (f : FilledField.t)
      (w : World lib) :
  exists w' added,
    fillField lib form f w = (w', Normal tt) /\
    snd w' = (snd w ++ added)%list /\
    forallb (worksOn (pdfField f)) added = true.
Proof.
  destruct w as [doc log]. unfold fillField.
  destruct (negb (String.eqb (value f) "---")
            && negb (String.eqb (value f) "[Manual Entry]")).
  2:{ exists (doc, log), []. cbn [snd]. rewrite app_nil_r. repeat split. }
  unfold tryCatch, bind, getField', writer, consoleWarn, logged, ret.
  cbn beta zeta iota delta [fst snd].
  destruct (getField lib doc (pdfField f)) as [field | e].
  - destruct field; cbn beta zeta iota delta [fst snd];
      [ destruct (setText lib doc (pdfField f) (value f)) as [d [[] | e]]
      | destruct (includes ["yes"; "true"; "on"] (toLowerCase (value f)));
        cbn beta zeta iota delta [fst snd];
        [ destruct (check lib doc (pdfField f)) as [d [[] | e]]
        | destruct (uncheck lib doc (pdfField f)) as [d [[] | e]] ]
      | destruct (select lib doc (pdfField f) (value f)) as [d [[] | e]]
      | ];
      cbn [fst snd];
      do 2 eexists; (split; [reflexivity |]); cbn [snd];
      rewrite <- ?app_assoc; (split; [reflexivity |]);
      cbn [forallb worksOn app andb]; now rewrite String.eqb_refl.
  - do 2 eexists. split; [reflexivity |]. cbn [snd]. rewrite <- ?app_assoc.
    split; [reflexivity |]. cbn [forallb worksOn app andb]. now rewrite String.eqb_refl.
Qed.

Lemma worksOn_fieldWork (name : string) (c : Call) :
  worksOn name c = true -> isFieldWork c = true.
Proof. destruct c; cbn; trivial. Qed.

Lemma fillAll_field_work (lib : PdfLib.t) (form : Form.t)
      (previewData : list FilledField.t) :
  forall w : World lib,
  exists w' added,
    fillAll lib form previewData w = (w', Normal tt) /\
    snd w' = (snd w ++ added)%list /\
    forallb isFieldWork added = true.
Proof.
  induction previewData as [| f rest IH]; intro w; cbn [fillAll].
  - exists w, []. rewrite app_nil_r. repeat split.
  - unfold bind.
    destruct (fillField_calls lib form f w) as [w1 [a1 [-> [E1 H1]]]].
    destruct (IH w1) as [w2 [a2 [-> [E2 H2]]]].
    exists w2, (a1 ++ a2)%list. rewrite E2, E1, app_assoc.
    repeat split. rewrite forallb_app, H2, andb_true_r.
    apply forallb_forall. intros c Hc.
    rewrite forallb_forall in H1. eapply worksOn_fieldWork; eauto.
Qed.

(** X17. A document that [generatePdfBytes] returns has been flattened:
    whenever bytes come back, the last two calls of the run are the
    flattening of the form and the save, and no call before them is
    either of the two. *)
Theorem returned_document_is_flattened
        (lib : PdfLib.t) (store : TemplateService.t) (today : string)
        (form : Form.t) (customer : CustomerProfile.t)
        (log : list Call) (bytes : Uint8Array lib) :
  generatePdfBytes lib store today form customer = (log, Normal bytes) ->
  exists calls,
    log = (calls ++ [Flatten; Save])%list /\ forallb isFieldWork calls = true.
Proof.
  unfold generatePdfBytes.
  destruct (TemplateService.getTemplateFile store (Form.id form))
    as [[| ch template] |]; try discriminate.
  destruct (load lib (String ch template)) as [pdfDoc | e]; [| discriminate].
  destruct (generatePreviewData store today (Form.id form) customer)
    as [previewData | e]; [| discriminate].
  unfold bind at 1.
  destruct (fillAll_field_work lib form previewData (pdfDoc, []))
    as [[doc calls] [added [-> [Ecalls Hwork]]]].
  cbn [snd app] in Ecalls. subst added.
  unfold finish, bind, writer, logged. cbn beta zeta iota delta [fst snd].
  destruct (flatten lib doc) as [flat [[] | e]]; cbn [fst snd].
  - destruct (save lib flat) as [b | e]; intros [= <- <-].
    exists calls. rewrite <- app_assoc. split; [reflexivity | exact Hwork].
  - discriminate.
Qed.

Lemma returned_document_is_flattened_witness :
  exists calls,
    [ GetField "Ghost";
      ConsoleWarn "Ghost" "Credit Application (F&I)" "no form field with this name";
      GetField "Vin";
      SetText "Vin" "1HGCM82633A004352";
      ConsoleWarn "Vin" "Credit Application (F&I)"
                  "text exceeds the field's maximum length";
      GetField "Name"; SetText "Name" "Ada Moss";
      GetField "Financing"; Check "Financing";
      Flatten; Save ] = (calls ++ [Flatten; Save])%list /\
    forallb isFieldWork calls = true.
Proof.
  apply (returned_document_is_flattened
           ToyPdf.lib ToyPdf.store "11/2/2026" Catalog.credit_application
           Samples.closingCustomer _
           [("Name", "Ada Moss"); ("Financing", "checked")]).
  reflexivity.
Defined.

Lemma Forall2_in_right (A B : Type) (R : A -> B -> Prop)
      (l : list A) (l' : list B) (y : B) :
  Forall2 R l l' -> In y l' -> exists x, In x l /\ R x y.
Proof.
  induction 1 as [| x y' l l' Hxy _ IH]; intros Hin; [destruct Hin |].
  destruct Hin as [<- | Hin].
  - exists x. split; [now left | exact Hxy].
  - destruct (IH Hin) as [x' [Hx' Hr]]. exists x'. split; [now right | exact Hr].
Qed.

(** A run whose preview throws makes no call. *)
Lemma run_without_preview (lib : PdfLib.t) (store : TemplateService.t)
      (today : string) (form : Form.t) (customer : CustomerProfile.t) (e : string) :
  generatePreviewData store today (Form.id form) customer = Throw e ->
  fst (generatePdfBytes lib store today form customer) = [].
Proof.
  intro E. unfold generatePdfBytes.
  destruct (TemplateService.getTemplateFile store (Form.id form))
    as [[| ch template] |]; try reflexivity.
  destruct (load lib (String ch template)) as [pdfDoc | e']; [| reflexivity].
  now rewrite E.
Qed.

(** The calls of a run address eligible fields of the preview only. *)
Lemma run_addresses_eligible (lib : PdfLib.t) (store : TemplateService.t)
      (today : string) (form : Form.t) (customer : CustomerProfile.t)
      (previewData : list FilledField.t) :
  generatePreviewData store today (Form.id form) customer = Normal previewData ->
  Forall2 (fun p f =>
             previewField (TemplateService.getMappingsForForm store (Form.id form))
                          today customer p = Normal f)
          (TemplateService.getDiscoveredFields store (Form.id form)) previewData /\
  addressesOnly (map pdfField (filter eligible previewData))
                (fst (generatePdfBytes lib store today form customer)).
Proof.
  intro E. split; [now apply PreviewRules.preview_entries |].
  unfold generatePdfBytes.
  destruct (TemplateService.getTemplateFile store (Form.id form))
    as [[| ch template] |]; try constructor.
  destruct (load lib (String ch template)) as [pdfDoc | e]; [| constructor].
  rewrite E. unfold bind at 1.
  destruct (GeneratorProps.fillAll_contained lib form previewData (pdfDoc, []))
    as [[doc calls] [-> [added [Ecalls [_ Honly]]]]].
  cbn [snd app] in Ecalls. subst added.
  unfold finish, bind, writer, logged. cbn beta zeta iota delta [fst snd].
  destruct (flatten lib doc) as [flat [[] | e]]; cbn [fst snd].
  - destruct (save lib flat); cbn [fst]; rewrite <- app_assoc;
      apply Forall_app; (split; [exact Honly |]);
      repeat constructor.
  - apply Forall_app. split; [exact Honly |]. repeat constructor.
Qed.

(** X18. No run of [generatePdfBytes] looks up or writes a field of the
    manual-entry list (sale price, down payment, payoff amount, annual
    income, SSN), whatever mapping is saved for it and whatever the
    library calls do. *)
Theorem manual_entry_fields_are_never_written
        (lib : PdfLib.t) (store : TemplateService.t) (today : string)
        (form : Form.t) (customer : CustomerProfile.t) :
  Forall (fun c => match fieldOf c with
                   | Some name => includes FINANCIAL_FIELDS_TO_SKIP name = false
                   | None => True
                   end)
         (fst (generatePdfBytes lib store today form customer)).
Proof.
  destruct (generatePreviewData store today (Form.id form) customer)
    as [previewData | e] eqn:E.
  2:{ rewrite (run_without_preview _ _ _ _ _ _ E). constructor. }
  destruct (run_addresses_eligible lib store today form customer previewData E)
    as [Hall Honly].
  eapply Forall_impl; [| exact Honly].
  intro c. cbn beta. destruct (fieldOf c) as [name |]; trivial.
  intro Hin. apply in_map_iff in Hin as [f [<- Hf]].
  apply filter_In in Hf as [Hf Hel].
  destruct (Forall2_in_right _ _ _ _ _ _ Hall Hf) as [p [_ Hp]].
  pose proof (PreviewRules.previewField_name _ _ _ _ _ Hp) as Hname.
  destruct (includes FINANCIAL_FIELDS_TO_SKIP (pdfField f)) eqn:Hskip; trivial.
  rewrite Hname in Hskip.
  destruct (PreviewRules.previewField_skipped _ _ _ _ _ Hp Hskip) as [Hv _].
  unfold eligible in Hel. rewrite Hv in Hel. discriminate Hel.
Qed.

(** X19. A template none of whose fields has a usable mapping is
    returned blank: when every discovered field is on the manual-entry
    list or unmapped, as after a failed fetch of the mappings, the run
    addresses no field at all. *)
Theorem unmapped_template_is_left_blank
        (lib : PdfLib.t) (store : TemplateService.t) (today : string)
        (form : Form.t) (customer : CustomerProfile.t) :
  forallb (fun p => includes FINANCIAL_FIELDS_TO_SKIP p
                    || unmapped p (TemplateService.getMappingsForForm store (Form.id form)))
          (TemplateService.getDiscoveredFields store (Form.id form)) = true ->
  Forall (fun c => fieldOf c = None)
         (fst (generatePdfBytes lib store today form customer)).
Proof.
  intro Hnone.
  destruct (generatePreviewData store today (Form.id form) customer)
    as [previewData | e] eqn:E.
  2:{ rewrite (run_without_preview _ _ _ _ _ _ E). constructor. }
  destruct (run_addresses_eligible lib store today form customer previewData E)
    as [Hall Honly].
  assert (Hblank : filter eligible previewData = []).
  { clear Honly E. induction Hall as [| p f ps fs Hf _ IH]; [reflexivity |].
    cbn [forallb] in Hnone. apply andb_true_iff in Hnone as [Hp Hps].
    cbn [filter]. rewrite (IH Hps).
    assert (Hv : value f = "[Manual Entry]" \/ value f = "---").
    { destruct (includes FINANCIAL_FIELDS_TO_SKIP p) eqn:Hskip.
      - left. eapply PreviewRules.previewField_skipped; eauto.
      - right. eapply PreviewRules.previewField_unmapped; eauto. }
    unfold eligible. destruct Hv as [-> | ->]; reflexivity. }
  rewrite Hblank in Honly. eapply Forall_impl; [| exact Honly].
  intro c. cbn beta. destruct (fieldOf c); [intros [] | reflexivity].
Qed.

Lemma unmapped_template_is_left_blank_witness :
  Forall (fun c => fieldOf c = None)
         (fst (generatePdfBytes ToyPdf.lib unmappedStore "11/2/2026"
                                Catalog.credit_application Samples.closingCustomer)).
Proof.
  apply (unmapped_template_is_left_blank
           ToyPdf.lib unmappedStore "11/2/2026" Catalog.credit_application
           Samples.closingCustomer).
  reflexivity.
Defined.

Lemma resolve_boolean_leaf (c : CustomerProfile.t) (path : string) (b : bool) :
  In (path, b) (booleanLeaves c) ->
  Utils.getValueByPath (Encode.profile c) path = Normal (VBool b).
Proof.
  destruct c as [id created ? [? ? ? ?] [? ? ?] ?].
  intros [[= <- <-] | [[= <- <-] | []]]; destruct created; reflexivity.
Qed.

(** X20. A check box mapped to a boolean leaf of the profile follows
    it: the preview reads "Yes" or "No", and the generator checks the
    box when the leaf is true and unchecks it when the leaf is false;
    a failure of that call only adds a warning. *)
Theorem check_box_follows_boolean_leaf
        (lib : PdfLib.t) (form : Form.t) (mappings : TemplateService.FieldMapping)
        (today : string) (c : CustomerProfile.t) (p path : string) (b : bool)
        (w : World lib) :
  In (path, b) (booleanLeaves c) ->
  includes FINANCIAL_FIELDS_TO_SKIP p = false ->
  TemplateService.mapped p mappings = Some path ->
  getField lib (fst w) p = Normal PDFCheckBox ->
  exists f w' tail,
    previewField mappings today c p = Normal f /\
    value f = (if b then "Yes" else "No") /\
    fillField lib form f w = (w', Normal tt) /\
    snd w' = (snd w ++ GetField p :: (if b then Check p else Uncheck p) :: tail)%list /\
    (tail = [] \/ exists e, tail = [ConsoleWarn p (Form.name form) e]).
Proof.
  intros Hleaf Hskip Hmap Hbox.
  assert (Hpreview : previewField mappings today c p =
                     Normal (FilledField.mk p (if b then "Yes" else "No") path)).
  { unfold previewField. rewrite Hskip, Hmap.
    pose proof (resolve_boolean_leaf c path b Hleaf) as Hres.
    destruct Hleaf as [[= <- <-] | [[= <- <-] | []]];
      cbn - [Utils.getValueByPath Encode.profile];
      rewrite Hres; cbn; destruct (_ : bool); reflexivity. }
  destruct w as [doc log]. cbn [fst] in Hbox.
  exists (FilledField.mk p (if b then "Yes" else "No") path).
  assert (Hyes : includes ["yes"; "true"; "on"] (toLowerCase "Yes") = true)
    by reflexivity.
  assert (Hno : includes ["yes"; "true"; "on"] (toLowerCase "No") = false)
    by reflexivity.
  unfold fillField, tryCatch, bind, getField', writer, consoleWarn, logged, ret.
  destruct b;
    cbn beta zeta iota delta [fst snd FilledField.pdfField FilledField.value
                              String.eqb Ascii.eqb Bool.eqb negb andb];
    rewrite ?Hyes, ?Hno, Hbox;
    cbn beta zeta iota delta [fst snd];
    [ destruct (check lib doc p) as [d [[] | e]]
    | destruct (uncheck lib doc p) as [d [[] | e]] ];
    cbn [fst snd];
    do 2 eexists; (split; [exact Hpreview |]); (split; [reflexivity |]);
    (split; [cbn; reflexivity |]); cbn [snd]; rewrite <- ?app_assoc; cbn [app];
    split; try reflexivity; eauto.
Qed.

Lemma check_box_follows_boolean_leaf_witness :
  exists f w' tail,
    previewField (TemplateService.getMappingsForForm ToyPdf.store "credit_application")
                 "11/2/2026" Samples.closingCustomer "Financing" = Normal f /\
    value f = "Yes" /\
    fillField ToyPdf.lib Catalog.credit_application f ([], []) = (w', Normal tt) /\
    snd w' = GetField "Financing" :: Check "Financing" :: tail /\
    (tail = [] \/
     exists e, tail = [ConsoleWarn "Financing" "Credit Application (F&I)" e]).
Proof.
  apply (check_box_follows_boolean_leaf
           ToyPdf.lib Catalog.credit_application
           (TemplateService.getMappingsForForm ToyPdf.store "credit_application")
           "11/2/2026" Samples.closingCustomer "Financing"
           "financial_info.financing_needed" true ([], []));
    try reflexivity.
  right. left. reflexivity.
Defined.

End GeneratorRules.


(* ================================================================== *)
(** * Properties of the batch and of the customer search *)
(* ================================================================== *)

Module BatchRules.

Import PdfGenerationService PDFPreviewModal BatchFacts.

Section WithLibrary.

Context (lib : PdfLib.t) (store : TemplateService.t) (today : string)
        (customer : CustomerProfile.t).

(** The loop over a run of documents that all generate. *)
Lemma generateEach_prefix (total : nat) (before rest : list Form.t) :
  Forall (succeeds lib store today customer) before ->
  forall i zip labels runs,
    generateEach lib store today customer total (before ++ rest) i zip labels runs =
      generateEach lib store today customer total rest (i + List.length before)
        (zip ++ flat_map (entryOf lib store today customer) before)%list
        (labels ++ labelsFrom i total before)%list
        (runs ++ map (runOf lib store today customer) before)%list.
Proof.
  induction 1 as [| form before [bytes Hform] _ IH]; intros i zip labels runs.
  - cbn. now rewrite Nat.add_0_r, !app_nil_r.
  - cbn [app generateEach flat_map labelsFrom map List.length].
    unfold entryOf at 1, runOf at 1. unfold resultOf in Hform |- *.
    destruct (generatePdfBytes lib store today form customer) as [log result].
    cbn [fst snd] in Hform |- *. subst result.
    rewrite IH. rewrite <- !app_assoc. cbn [app].
    now rewrite Nat.add_succ_r.
Qed.

(** X21. The batch stops at the first document that fails: the
    documents before it were generated, the failing one was started,
    none after it is started, the status is error with the message
    "Error: " and the failure's text, and no download is offered. *)
Theorem batch_aborts_on_first_failure
        (Blob : Type) (generateAsync : Zip lib -> completion Blob)
        (before after : list Form.t) (form : Form.t) (e : string) :
  Forall (succeeds lib store today customer) before ->
  resultOf lib store today customer form = Throw e ->
  handleGenerate lib Blob generateAsync store today
                 (before ++ form :: after) customer =
    mkOutcome Blob error ("Error: " ++ e)
      ("Initializing..." ::
         labelsFrom 0 (List.length (before ++ form :: after)) (before ++ [form]))
      (map (runOf lib store today customer) (before ++ [form]))
      None.
Proof.
  intros Hbefore Hform. unfold handleGenerate.
  rewrite (generateEach_prefix _ _ _ Hbefore). cbn [generateEach].
  unfold resultOf in Hform.
  assert (Hlabels : forall i total l,
             labelsFrom i total (l ++ [form]) =
               (labelsFrom i total l
                ++ [progressLabel (i + List.length l) total form])%list).
  { intros i total l. revert i.
    induction l as [| f l IHl]; intro i; cbn [labelsFrom app List.length].
    - now rewrite Nat.add_0_r.
    - rewrite IHl, Nat.add_succ_r. reflexivity. }
  rewrite Hlabels, map_app. cbn [map]. unfold runOf.
  destruct (generatePdfBytes lib store today form customer) as [log result].
  cbn [fst snd] in Hform |- *. subst result. reflexivity.
Qed.

(** X22. When every document generates and the packaging succeeds,
    the archive receives one entry per document, in the order of the
    list, named after the form with white space replaced by
    underscores, and the download is named after the customer. *)
Theorem batch_packs_every_document_in_order
        (Blob : Type) (generateAsync : Zip lib -> completion Blob)
        (forms : list Form.t) (zipBlob : Blob) :
  Forall (succeeds lib store today customer) forms ->
  generateAsync (flat_map (entryOf lib store today customer) forms) = Normal zipBlob ->
  handleGenerate lib Blob generateAsync store today forms customer =
    mkOutcome Blob success "✓ Generation Complete!"
      ("Initializing..." :: labelsFrom 0 (List.length forms) forms
         ++ ["Creating ZIP file..."])
      (map (runOf lib store today customer) forms)
      (Some (downloadName customer, zipBlob))
  /\ map fst (flat_map (entryOf lib store today customer) forms) = map fileName forms.
Proof.
  intros Hall Hzip. split.
  - unfold handleGenerate.
    rewrite <- (app_nil_r forms) at 2.
    rewrite (generateEach_prefix _ _ _ Hall). cbn [generateEach app].
    now rewrite Hzip.
  - clear Hzip. induction Hall as [| form rest [bytes Hform] _ IH]; [reflexivity |].
    cbn [flat_map map]. unfold entryOf at 1. rewrite Hform. cbn. now rewrite IH.
Qed.

End WithLibrary.

Lemma batch_aborts_on_first_failure_witness :
  handleGenerate ToyPdf.lib _ packed gappedStore "11/2/2026"
                 ([Catalog.credit_application] ++ Catalog.reference_sheet
                    :: [Catalog.delivery_report]) Samples.closingCustomer =
    mkOutcome _ error
      ("Error: " ++ "Template file not found for form: Reference Sheet")
      ("Initializing..." ::
         labelsFrom 0 3 ([Catalog.credit_application] ++ [Catalog.reference_sheet]))
      (map (runOf ToyPdf.lib gappedStore "11/2/2026" Samples.closingCustomer)
           ([Catalog.credit_application] ++ [Catalog.reference_sheet]))
      None.
Proof.
  apply (batch_aborts_on_first_failure
           ToyPdf.lib gappedStore "11/2/2026" Samples.closingCustomer _ packed
           [Catalog.credit_application] [Catalog.delivery_report]
           Catalog.reference_sheet
           "Template file not found for form: Reference Sheet").
  - repeat constructor. eexists. reflexivity.
  - reflexivity.
Defined.

Lemma batch_packs_every_document_in_order_witness :
  handleGenerate ToyPdf.lib _ packed ToyPdf.store "11/2/2026"
                 [Catalog.credit_application; Catalog.reference_sheet]
                 Samples.closingCustomer =
    mkOutcome _ success "✓ Generation Complete!"
      ("Initializing..." ::
         labelsFrom 0 2 [Catalog.credit_application; Catalog.reference_sheet]
         ++ ["Creating ZIP file..."])
      (map (runOf ToyPdf.lib ToyPdf.store "11/2/2026" Samples.closingCustomer)
           [Catalog.credit_application; Catalog.reference_sheet])
      (Some (downloadName Samples.closingCustomer,
             flat_map (entryOf ToyPdf.lib ToyPdf.store "11/2/2026"
                               Samples.closingCustomer)
                      [Catalog.credit_application; Catalog.reference_sheet]))
  /\ map fst (flat_map (entryOf ToyPdf.lib ToyPdf.store "11/2/2026"
                                Samples.closingCustomer)
                       [Catalog.credit_application; Catalog.reference_sheet])
     = map fileName [Catalog.credit_application; Catalog.reference_sheet].
Proof.
  apply (batch_packs_every_document_in_order
           ToyPdf.lib ToyPdf.store "11/2/2026" Samples.closingCustomer _ packed
           [Catalog.credit_application; Catalog.reference_sheet]).
  - repeat constructor; eexists; reflexivity.
  - reflexivity.
Defined.

(** X23. The documents required for a customer get pairwise different
    file names, so no entry of the archive replaces another. *)
Theorem required_documents_have_distinct_file_names (c : CustomerProfile.t) :
  NoDup (map (fun r => fileName (FormService.form r)) (FormService.getRequiredForms c)).
Proof.
  unfold FormService.getRequiredForms.
  destruct (FormService.determineStage c);
    destruct (String.eqb (VehicleInfo.purchase_type (CustomerProfile.vehicle_info c)) "new");
    destruct (VehicleInfo.trade_in (CustomerProfile.vehicle_info c));
    vm_compute; repeat constructor; cbn; intuition discriminate.
Qed.

End BatchRules.

Module SearchRules.

Import CustomerList.

Lemma prefix_app (a b : string) : String.prefix a (a ++ b) = true.
Proof.
  induction a as [| ch a IH]; cbn.
  - now destruct b.
  - destruct (ascii_dec ch ch); [exact IH | contradiction].
Qed.

Lemma includes_infix (pre mid post : string) :
  includes (pre ++ mid ++ post) mid = true.
Proof.
  induction pre as [| ch pre IH].
  - cbn [append]. destruct (mid ++ post) eqn:E; cbn [includes];
      rewrite <- E, prefix_app; reflexivity.
  - cbn [append includes]. rewrite IH. apply orb_true_r.
Qed.

Lemma toLowerCase_app (a b : string) :
  toLowerCase (a ++ b) = toLowerCase a ++ toLowerCase b.
Proof. induction a as [| ch a IH]; cbn; [reflexivity | now rewrite IH]. Qed.

(** X24. The customer search is a case-insensitive substring search on
    the name: an empty query keeps the whole list, and a customer is
    kept by every non-empty query that spells, in any letter case, a
    part of the customer's full name. *)
Theorem search_finds_name_parts_in_any_case (customers : list CustomerProfile.t) :
  filteredCustomers customers "" = customers /\
  forall (c : CustomerProfile.t) (query pre mid post : string),
    In c customers ->
    PersonalInfo.full_name (CustomerProfile.personal_info c) = pre ++ mid ++ post ->
    toLowerCase query = toLowerCase mid ->
    In c (filteredCustomers customers query).
Proof.
  split; [reflexivity |].
  intros c query pre mid post Hin Hname Hquery.
  unfold filteredCustomers.
  destruct (negb (nonEmpty query)); [exact Hin |].
  apply filter_In. split; [exact Hin |].
  rewrite Hname, Hquery, !toLowerCase_app, includes_infix. reflexivity.
Qed.

Lemma search_finds_name_parts_in_any_case_witness :
  In Samples.closingCustomer
     (filteredCustomers [Samples.blank; Samples.closingCustomer] "MOS").
Proof.
  apply (proj2 (search_finds_name_parts_in_any_case
                  [Samples.blank; Samples.closingCustomer])
               Samples.closingCustomer "MOS" "Ada " "Mos" "s").
  - right. left. reflexivity.
  - reflexivity.
  - reflexivity.
Defined.

End SearchRules.
